(** * The OD-request backend: authorization, date validation and handlers

    A shallow embedding of the Express server of the repository (the
    version with the [authenticate]/[authorize] middleware) and of the
    parts of its platform it relies on: the ECMAScript [Date] arithmetic
    and the hosted relational store reached through the Supabase client.

    Layout: the definitions come first (ECMAScript dates, string helpers,
    the store, the handler monad, the middleware and the routes), then the
    facts proved about them. *)

From Stdlib Require Import ZArith Lia ZifyBool.
From stdpp Require Import base option list gmap strings pretty sorting.

(* ===================================================================== *)
(** ** ECMAScript time values and calendar arithmetic                     *)
(* ===================================================================== *)

(** A JavaScript number that is either an integer or [NaN]; [None] is
    [NaN].  A [Date] object is its time value: milliseconds since the
    epoch, or [NaN] for an Invalid Date. *)
Module JSDate.
Local Open Scope Z_scope.

Definition Num : Type := option Z.
Definition NaN : Num := None.

Definition msPerDay : Z := 86400000.
Definition maxTime : Z := 8640000000000000.

(** [Day(t) = floor(t / msPerDay)] *)
Definition Day (t : Z) : Z := t / msPerDay.

(** [DayFromYear(y)]: the day number of the first day of year [y]. *)
Definition DayFromYear (y : Z) : Z :=
  365 * (y - 1970) + (y - 1969) / 4 - (y - 1901) / 100 + (y - 1601) / 400.

(** [DaysInYear(y)] *)
Definition DaysInYear (y : Z) : Z :=
  if negb (y mod 4 =? 0) then 365
  else if negb (y mod 100 =? 0) then 366
  else if negb (y mod 400 =? 0) then 365
  else 366.

(** [YearFromTime] on day numbers: the largest [y] with
    [DayFromYear y <= d].  The mean year of 146097/400 days gives an
    estimate that is off by at most one. *)
Definition YearFromDay (d : Z) : Z :=
  let y := 1970 + (400 * d) / 146097 in
  if d <? DayFromYear y then y - 1
  else if DayFromYear (y + 1) <=? d then y + 1
  else y.

Definition YearFromTime (t : Z) : Z := YearFromDay (Day t).

(** [InLeapYear]: 1 in a leap year, 0 otherwise. *)
Definition LeapOfYear (y : Z) : Z := if DaysInYear y =? 366 then 1 else 0.
Definition InLeapYear (t : Z) : Z := LeapOfYear (YearFromTime t).

Definition DayWithinYear (t : Z) : Z := Day t - DayFromYear (YearFromTime t).

(** Number of days of the year before month [m] (0 = January). *)
Definition DaysBeforeMonth (m leap : Z) : Z :=
  match m with
  | 0 => 0
  | 1 => 31
  | 2 => 59 + leap
  | 3 => 90 + leap
  | 4 => 120 + leap
  | 5 => 151 + leap
  | 6 => 181 + leap
  | 7 => 212 + leap
  | 8 => 243 + leap
  | 9 => 273 + leap
  | 10 => 304 + leap
  | _ => 334 + leap
  end.

(** The month table of [MonthFromTime], on a day within the year. *)
Definition MonthOfDay (dwy leap : Z) : Z :=
  if dwy <? 31 then 0
  else if dwy <? 59 + leap then 1
  else if dwy <? 90 + leap then 2
  else if dwy <? 120 + leap then 3
  else if dwy <? 151 + leap then 4
  else if dwy <? 181 + leap then 5
  else if dwy <? 212 + leap then 6
  else if dwy <? 243 + leap then 7
  else if dwy <? 273 + leap then 8
  else if dwy <? 304 + leap then 9
  else if dwy <? 334 + leap then 10
  else 11.

Definition MonthFromTime (t : Z) : Z :=
  MonthOfDay (DayWithinYear t) (InLeapYear t).

(** [DateFromTime]: the day of the month, from 1. *)
Definition DateFromTime (t : Z) : Z :=
  DayWithinYear t - DaysBeforeMonth (MonthFromTime t) (InLeapYear t) + 1.

(** [MakeDay(year, month, date)] *)
Definition MakeDay (year month date : Z) : Z :=
  let ym := year + month / 12 in
  let mn := month mod 12 in
  DayFromYear ym + DaysBeforeMonth mn (LeapOfYear ym) + date - 1.

(** [MakeDate(day, time)] *)
Definition MakeDate (day time : Z) : Z := day * msPerDay + time.

(** [TimeClip]: time values beyond 8.64e15 ms are [NaN]. *)
Definition TimeClip (t : Z) : Num :=
  if Z.abs t <=? maxTime then Some t else NaN.

Section Zone.
(** The offset of local time from UTC in milliseconds.  The zone is one
    of fixed offset (the institution's zone has no daylight saving). *)
Variable LocalTZA : Z.

Definition LocalTime (t : Z) : Z := t + LocalTZA.
Definition UTC (t : Z) : Z := t - LocalTZA.

(** [Date.prototype.getFullYear], [getMonth], [getDate]: [NaN] on an
    Invalid Date, otherwise the component of the local time. *)
Definition getFullYear (d : Num) : Num :=
  match d with
  | None => NaN
  | Some t => Some (YearFromTime (LocalTime t))
  end.

Definition getMonth (d : Num) : Num :=
  match d with
  | None => NaN
  | Some t => Some (MonthFromTime (LocalTime t))
  end.

Definition getDate (d : Num) : Num :=
  match d with
  | None => NaN
  | Some t => Some (DateFromTime (LocalTime t))
  end.

(** [new Date(year, month, date)]: any [NaN] argument gives an Invalid
    Date; a year from 0 to 99 stands for 1900 + year; the local
    midnight is converted to UTC and clipped. *)
Definition new_Date_ymd (year month date : Num) : Num :=
  match year, month, date with
  | Some y, Some m, Some dt =>
      let yr := if (0 <=? y) && (y <=? 99) then 1900 + y else y in
      TimeClip (UTC (MakeDate (MakeDay yr m dt) 0))
  | _, _, _ => NaN
  end.
End Zone.

(** [a < b] on two dates compares their time values; a comparison with
    [NaN] is false. *)
Definition lt (a b : Num) : bool :=
  match a, b with
  | Some x, Some y => x <? y
  | _, _ => false
  end.

End JSDate.

(* ===================================================================== *)
(** ** Strings                                                            *)
(* ===================================================================== *)

(** [String.prototype.endsWith]: the search string is compared with the
    last [length searchString] characters; a longer search string never
    matches. *)
Definition endsWith (s searchString : string) : bool :=
  let len := String.length s in
  let searchLength := String.length searchString in
  if len <? searchLength then false
  else String.eqb (String.substring (len - searchLength) searchLength s) searchString.

(** [Array.prototype.join] *)
Fixpoint join (sep : string) (l : list string) : string :=
  match l with
  | [] => EmptyString
  | [x] => x
  | x :: rest => x +:+ sep +:+ join sep rest
  end.

Definition newline : string := String (Ascii.ascii_of_nat 10) EmptyString.

(** Truthiness of a value that is a string, [null] or [undefined]: only a
    non-empty string is truthy. *)
Definition truthy (v : option string) : bool :=
  match v with
  | Some s => negb (String.eqb s EmptyString)
  | None => false
  end.

(* ===================================================================== *)
(** ** The data model: rows and request bodies                            *)
(* ===================================================================== *)

Record AdminRow := {
  a_email : string;
  a_department : option string;
}.

Record User := {
  u_id : string;
  u_name : string;
  u_email : string;
  u_department : string;
  u_year : Z;
}.

Record Timing := {
  t_year : Z;
  t_period_number : Z;
  t_start_time : string;
  t_end_time : string;
}.

Record ODRequest := {
  od_id : nat;
  od_user_id : string;
  od_reg_number : string;
  od_year : Z;
  od_periods : list Z;
  od_date : string;
  od_department : string;
  od_category : string;
  od_status : string;
  od_remarks : option string;
  od_reviewed_by : option string;
  od_reviewed_at : option Z;
  od_submitted_at : Z;
}.

(** The JSON body of [POST /api/od/request].  The handler hands the body
    to the store as it came, so the body may carry any column of the
    table; a field that is absent is [None]. *)
Record ODBody := {
  b_user_id : option string;
  b_reg_number : string;
  b_year : Z;
  b_periods : list Z;
  b_date : string;
  b_department : string;
  b_od_category : string;
  b_status : option string;
  b_remarks : option string;
  b_reviewed_by : option string;
  b_reviewed_at : option Z;
}.

(** The JSON body of [PUT /api/od/review/:id]. *)
Record ReviewBody := {
  rb_status : option string;
  rb_remarks : option string;
  rb_reviewedBy : option string;
}.

(** The JSON body of [POST /api/user]. *)
Record UserBody := {
  ub_id : option string;
  ub_name : string;
  ub_email : string;
  ub_department : string;
  ub_year : Z;
}.

(** The verified token claims in [req.user], with the department that
    [authorize('admin')] attaches. *)
Record Claims := {
  sub : string;
  email : string;
  department : option string;
}.

(* ===================================================================== *)
(** ** The store behind the Supabase client                               *)
(* ===================================================================== *)

Record StoreError := {
  code : string;
  message : string;
}.

(** What a query resolves to: [{ data, error: null }] or
    [{ data: null, error }]. *)
Inductive Reply (A : Type) : Type :=
| Data (d : A)
| Error (e : StoreError).
Arguments Data {A} d.
Arguments Error {A} e.

(** Modelled from the spec: the schema of the four tables is provisioned
    outside the sources; the keys are those of the data model.
    [admin_whitelist] is keyed by email (the value is the optional
    department) and [users] by id; the rows of [od_requests] are kept in
    insertion order and carry the id the store gave them. *)
Record Store := {
  admin_whitelist : gmap string (option string);
  users : gmap string User;
  year_period_timings : list Timing;
  od_requests : list ODRequest;
}.

Module Supabase.

(** The error with which [.single()] answers when the query did not
    select exactly one row. *)
Definition PGRST116 : StoreError :=
  {| code := "PGRST116";
     message := "JSON object requested, multiple (or no) rows returned" |}.

Definition unique_violation : StoreError :=
  {| code := "23505";
     message := "duplicate key value violates unique constraint" |}.

Definition not_null_violation : StoreError :=
  {| code := "23502";
     message := "null value violates not-null constraint" |}.

(** [.single()] on the rows a query selected. *)
Definition single {A} (rows : list A) : Reply A :=
  match rows with
  | [r] => Data r
  | _ => Error PGRST116
  end.

(** [from('admin_whitelist').select(..).eq('email', email).single()] *)
Definition whitelist_by_email (email : string) (s : Store) : Reply AdminRow * Store :=
  (single (option_list
     ((fun d => {| a_email := email; a_department := d |}) <$> admin_whitelist s !! email)), s).

(** [from('admin_whitelist').select('*')] *)
Definition whitelist_all (s : Store) : Reply (list AdminRow) * Store :=
  (Data ((fun kv => {| a_email := kv.1; a_department := kv.2 |}) <$>
         map_to_list (admin_whitelist s)), s).

(** [from('admin_whitelist').insert(body).select().single()] *)
Definition whitelist_insert (row : AdminRow) (s : Store) : Reply AdminRow * Store :=
  match admin_whitelist s !! a_email row with
  | Some _ => (Error unique_violation, s)
  | None =>
      (Data row,
       {| admin_whitelist := <[a_email row := a_department row]> (admin_whitelist s);
          users := users s;
          year_period_timings := year_period_timings s;
          od_requests := od_requests s |})
  end.

(** [from('admin_whitelist').delete().eq('email', email)] *)
Definition whitelist_delete (email : string) (s : Store) : Reply unit * Store :=
  (Data tt,
   {| admin_whitelist := delete email (admin_whitelist s);
      users := users s;
      year_period_timings := year_period_timings s;
      od_requests := od_requests s |}).

(** [from('users').select('*').eq('id', id).single()] *)
Definition user_by_id (id : string) (s : Store) : Reply User * Store :=
  (single (option_list (users s !! id)), s).

(** [from('users').upsert(body).select().single()] *)
Definition user_upsert (body : UserBody) (s : Store) : Reply User * Store :=
  match ub_id body with
  | None => (Error not_null_violation, s)
  | Some id =>
      let row := {| u_id := id; u_name := ub_name body; u_email := ub_email body;
                    u_department := ub_department body; u_year := ub_year body |} in
      (Data row,
       {| admin_whitelist := admin_whitelist s;
          users := <[id := row]> (users s);
          year_period_timings := year_period_timings s;
          od_requests := od_requests s |})
  end.

Definition period_le (a b : Timing) : Prop :=
  (t_period_number a <= t_period_number b)%Z.

#[global] Instance period_le_dec a b : Decision (period_le a b).
Proof. unfold period_le. apply _. Defined.

(** [from('year_period_timings').select('*').eq('year', year)
      .order('period_number', { ascending: true })] *)
Definition timings_of_year (year : Z) (s : Store) : Reply (list Timing) * Store :=
  (Data (merge_sort period_le
           (filter (fun t => t_year t = year) (year_period_timings s))), s).

(** [from('year_period_timings').select('*').eq('year', year)
      .in('period_number', periods)] *)
Definition timings_for (year : Z) (periods : list Z) (s : Store)
  : Reply (list Timing) * Store :=
  (Data (filter (fun t => t_year t = year /\ t_period_number t ∈ periods)
           (year_period_timings s)), s).

Definition same_slot (a b : Timing) : bool :=
  bool_decide (t_year a = t_year b /\ t_period_number a = t_period_number b).

(** One row of an upsert on the key (year, period_number). *)
Fixpoint timing_put (t : Timing) (rows : list Timing) : list Timing :=
  match rows with
  | [] => [t]
  | r :: rest => if same_slot r t then t :: rest else r :: timing_put t rest
  end.

(** [from('year_period_timings').upsert(body).select()] *)
Definition timings_upsert (body : list Timing) (s : Store) : Reply (list Timing) * Store :=
  (Data body,
   {| admin_whitelist := admin_whitelist s;
      users := users s;
      year_period_timings := foldl (fun rows t => timing_put t rows) (year_period_timings s) body;
      od_requests := od_requests s |}).

Definition fresh_od_id (rows : list ODRequest) : nat := S (max_list (od_id <$> rows)).

(** Modelled from the spec: the schema of [od_requests] is provisioned
    outside the sources.  A column the body leaves out takes the store's
    default: [status] defaults to pending, the review columns to null,
    the id and the submission time are given by the store. *)
Definition od_row_of_body (id : nat) (owner : string) (now : Z) (body : ODBody) : ODRequest :=
  {| od_id := id;
     od_user_id := owner;
     od_reg_number := b_reg_number body;
     od_year := b_year body;
     od_periods := b_periods body;
     od_date := b_date body;
     od_department := b_department body;
     od_category := b_od_category body;
     od_status := default "pending" (b_status body);
     od_remarks := b_remarks body;
     od_reviewed_by := b_reviewed_by body;
     od_reviewed_at := b_reviewed_at body;
     od_submitted_at := now |}.

Definition with_od_requests (rows : list ODRequest) (s : Store) : Store :=
  {| admin_whitelist := admin_whitelist s;
     users := users s;
     year_period_timings := year_period_timings s;
     od_requests := rows |}.

(** [from('od_requests').insert(body).select().single()] *)
Definition od_insert (now : Z) (body : ODBody) (s : Store) : Reply ODRequest * Store :=
  match b_user_id body with
  | None => (Error not_null_violation, s)
  | Some owner =>
      let row := od_row_of_body (fresh_od_id (od_requests s)) owner now body in
      (Data row, with_od_requests (od_requests s ++ [row]) s)
  end.

(** The object passed to [.update(..)]: a property whose value is
    [undefined] is dropped when the object is serialised, so the column
    keeps its value. *)
Record ODPatch := {
  p_status : option string;
  p_remarks : option string;
  p_reviewed_by : string;
  p_reviewed_at : Z;
}.

Definition od_apply (p : ODPatch) (r : ODRequest) : ODRequest :=
  {| od_id := od_id r;
     od_user_id := od_user_id r;
     od_reg_number := od_reg_number r;
     od_year := od_year r;
     od_periods := od_periods r;
     od_date := od_date r;
     od_department := od_department r;
     od_category := od_category r;
     od_status := default (od_status r) (p_status p);
     od_remarks := match p_remarks p with Some m => Some m | None => od_remarks r end;
     od_reviewed_by := Some (p_reviewed_by p);
     od_reviewed_at := Some (p_reviewed_at p);
     od_submitted_at := od_submitted_at r |}.

Definition od_update_rows (id : nat) (p : ODPatch) (rows : list ODRequest) : list ODRequest :=
  (fun r => if bool_decide (od_id r = id) then od_apply p r else r) <$> rows.

(** [from('od_requests').update(patch).eq('id', id).select().single()]:
    the rows with that id are updated and returned; when they are not
    exactly one the statement is rolled back and [.single()] fails. *)
Definition od_update (id : nat) (p : ODPatch) (s : Store) : Reply ODRequest * Store :=
  match filter (fun r => od_id r = id) (od_requests s) with
  | [r] => (Data (od_apply p r), with_od_requests (od_update_rows id p (od_requests s)) s)
  | _ => (Error PGRST116, s)
  end.

Definition newest_first (a b : ODRequest) : Prop :=
  (od_submitted_at b <= od_submitted_at a)%Z.
Definition oldest_first (a b : ODRequest) : Prop :=
  (od_submitted_at a <= od_submitted_at b)%Z.

#[global] Instance newest_first_dec a b : Decision (newest_first a b).
Proof. unfold newest_first. apply _. Defined.
#[global] Instance oldest_first_dec a b : Decision (oldest_first a b).
Proof. unfold oldest_first. apply _. Defined.

(** [from('od_requests').select('*').eq('user_id', userId)
      .order('submitted_at', { ascending: false })] *)
Definition od_history (userId : string) (s : Store) : Reply (list ODRequest) * Store :=
  (Data (merge_sort newest_first
           (filter (fun r => od_user_id r = userId) (od_requests s))), s).

(** The query that the two scoped handlers build: [.eq('department', d)]
    is chained only when the administrator's department is truthy. *)
Definition in_scope (dept : option string) (r : ODRequest) : bool :=
  if truthy dept then bool_decide (Some (od_department r) = dept) else true.

(** [from('od_requests').select('*, users!..(name, email)')
      .eq('status', 'pending') [.eq('department', d)]
      .order('submitted_at', { ascending: true })] *)
Definition od_pending (dept : option string) (s : Store)
  : Reply (list (ODRequest * option (string * string))) * Store :=
  (Data ((fun r => (r, (fun u => (u_name u, u_email u)) <$> users s !! od_user_id r)) <$>
         merge_sort oldest_first
           (filter (fun r => od_status r = "pending" /\ in_scope dept r = true)
              (od_requests s))), s).

(** [from('od_requests').select('status, department, od_category')
      [.eq('department', d)]] *)
Definition od_summary_rows (dept : option string) (s : Store)
  : Reply (list ODRequest) * Store :=
  (Data (filter (fun r => in_scope dept r = true) (od_requests s)), s).

(** [from('od_requests').select('reg_number, department, year,
      od_category, date, status').order('submitted_at', { ascending: false })] *)
Definition od_export_rows (s : Store) : Reply (list ODRequest) * Store :=
  (Data (merge_sort newest_first (od_requests s)), s).

End Supabase.

(* ===================================================================== *)
(** ** Responses                                                          *)
(* ===================================================================== *)

(** The counts of [GET /api/reports/summary]. *)
Record Stats := {
  total : nat;
  approved : nat;
  pending : nat;
  rejected : nat;
  deptDistribution : gmap string nat;
  categoryUsage : gmap string nat;
}.

Inductive Payload : Type :=
| JError (error : string)
| JText (text : string)
| JTimings (rows : list Timing)
| JUser (row : User)
| JOD (row : ODRequest)
| JODs (rows : list ODRequest)
| JPending (rows : list (ODRequest * option (string * string)))
| JStats (stats : Stats)
| JAdmin (row : AdminRow)
| JAdmins (rows : list AdminRow)
| Csv (text : string)
| NoContent.

Record Response := {
  status : nat;
  payload : Payload;
}.

(** [res.status(n).json(p)] *)
Definition json (n : nat) (p : Payload) : Response := {| status := n; payload := p |}.

(* ===================================================================== *)
(** ** The world a request runs in                                        *)
(* ===================================================================== *)

(** A call to the store, as the client builds it: the table, the verb and
    whether [.single()] ends the chain. *)
Inductive Verb := SELECT | INSERT | UPDATE | UPSERT | DELETE.

Record StoreOp := {
  op_table : string;
  op_verb : Verb;
  op_single : bool;
}.

(** One entry of the log of store calls: the call and the error it came
    back with, if any. *)
Record Call := {
  call_op : StoreOp;
  call_error : option StoreError;
}.

(** The store, the clock read by [new Date()], the failures the store
    service is going to have (one entry per call to come, [None] for a
    call that is served; an exhausted schedule serves every call) and the
    log of the calls made. *)
Record World := {
  db : Store;
  clock : Z;
  faults : list (option StoreError);
  trace : list Call;
}.

(** Computations over the world. *)
Definition M (A : Type) : Type := World -> A * World.

Definition ret {A} (a : A) : M A := fun w => (a, w).

Definition bind {A B} (m : M A) (k : A -> M B) : M B :=
  fun w => let (a, w') := m w in k a w'.

Notation "'let*' x ':=' m 'in' k" := (bind m (fun x => k))
  (at level 10, x name, m at level 100, k at level 200).

Definition error_of {A} (r : Reply A) : option StoreError :=
  match r with
  | Data _ => None
  | Error e => Some e
  end.

(** [await supabase.from(table)...]: the call is logged; it fails with the
    scheduled failure when there is one, and otherwise runs on the store. *)
Definition from {A} (op : StoreOp) (query : Store -> Reply A * Store) : M (Reply A) :=
  fun w =>
    match faults w with
    | Some e :: rest =>
        (Error e,
         {| db := db w; clock := clock w; faults := rest;
            trace := trace w ++ [{| call_op := op; call_error := Some e |}] |})
    | _ =>
        let (r, s) := query (db w) in
        (r,
         {| db := s; clock := clock w; faults := tail (faults w);
            trace := trace w ++ [{| call_op := op; call_error := error_of r |}] |})
    end.


(** How a handler body ends: with a value, with an early
    [return res.status(..).json(..)], or with a [throw]. *)
Inductive Completion (A : Type) : Type :=
| Normal (a : A)
| Return (r : Response)
| Throw (e : StoreError).
Arguments Normal {A} a.
Arguments Return {A} r.
Arguments Throw {A} e.

Definition Js (A : Type) : Type := M (Completion A).

Definition pure {A} (a : A) : Js A := ret (Normal a).
Definition return_ {A} (r : Response) : Js A := ret (Return r).
Definition throw {A} (e : StoreError) : Js A := ret (Throw e).

Definition bindJ {A B} (m : Js A) (k : A -> Js B) : Js B :=
  let* c := m in
  match c with
  | Normal a => k a
  | Return r => ret (Return r)
  | Throw e => ret (Throw e)
  end.

Notation "'let?' x ':=' m 'in' k" := (bindJ m (fun x => k))
  (at level 10, x name, m at level 100, k at level 200).

(** [const { data, error } = await query] *)
Definition await {A} (m : M A) : Js A := let* a := m in ret (Normal a).

Arguments from : simpl never.

(** [new Date()]: the date of the current time. *)
Definition new_Date : Js JSDate.Num := fun w => (Normal (Some (clock w)), w).

(** [if (error) throw error;] and then [data] *)
Definition orThrow {A} (r : Reply A) : Js A :=
  match r with
  | Data d => pure d
  | Error e => throw e
  end.

(** [try { body } catch (err) { res.status(500).json({ error: err.message }) }] *)
Definition try_catch (body : Js Response) : M Response :=
  let* c := body in
  match c with
  | Normal r => ret r
  | Return r => ret r
  | Throw err => ret (json 500 (JError (message err)))
  end.

(** What a middleware does: answer, or call [next()] with the request. *)
Inductive Step : Type :=
| Next (user : Claims)
| Respond (r : Response).

Definition whitelist_lookup : StoreOp :=
  {| op_table := "admin_whitelist"; op_verb := SELECT; op_single := true |}.

Definition timings_select : StoreOp :=
  {| op_table := "year_period_timings"; op_verb := SELECT; op_single := false |}.

Definition od_insert_op : StoreOp :=
  {| op_table := "od_requests"; op_verb := INSERT; op_single := true |}.
Definition od_update_op : StoreOp :=
  {| op_table := "od_requests"; op_verb := UPDATE; op_single := true |}.

(* ===================================================================== *)
(** ** The server                                                         *)
(* ===================================================================== *)

Inductive Validation : Type :=
| Valid
| Invalid (errorMsg : string).

Definition valid (v : Validation) : bool :=
  match v with
  | Valid => true
  | Invalid _ => false
  end.

Section Server.
(** [new Date(dateStr)]: the time value the engine parses from the
    string, [NaN] when it cannot. *)
Variable Date_parse : string -> JSDate.Num.
(** The offset of the server's zone, in milliseconds. *)
Variable LocalTZA : Z.

(** [new Date(d.getFullYear(), d.getMonth(), d.getDate())] *)
Definition normalize (d : JSDate.Num) : JSDate.Num :=
  JSDate.new_Date_ymd LocalTZA
    (JSDate.getFullYear LocalTZA d) (JSDate.getMonth LocalTZA d) (JSDate.getDate LocalTZA d).

(** *** Middleware *)

Definition authorize (role : string) (user : Claims) : M Step :=
  let* admin := from whitelist_lookup (Supabase.whitelist_by_email (email user)) in
  let isAdmin := match admin with Data _ => true | Error _ => false end in
  if String.eqb role "admin" then
    match admin with
    | Data a =>
        ret (Next {| sub := sub user; email := email user;
                     department := a_department a |})
    | Error _ => ret (Respond (json 403 (JError "Admin access required")))
    end
  else if String.eqb role "user" then
    let isUser := negb isAdmin && endsWith (email user) "@kpriet.ac.in" in
    if isUser then ret (Next user)
    else ret (Respond (json 403 (JError "User access required (KPRIET domain)")))
  else ret (Next user).

(** *** Helper functions *)

Definition validatePeriods (year : Z) (periods : list Z) (dateStr : string) : Js Validation :=
  let? reply := await (from timings_select (Supabase.timings_for year periods)) in
  let? timings := orThrow reply in
  let requestDate := Date_parse dateStr in
  let? now := new_Date in
  let reqDateNormalized := normalize requestDate in
  let nowDateNormalized := normalize now in
  if JSDate.lt reqDateNormalized nowDateNormalized then
    pure (Invalid "Cannot apply for OD on past dates.")
  else pure Valid.

(** The verdict of [validatePeriods] when the clock reads [now]: what
    the comparison of the two normalized dates leads to. *)
Definition verdict (dateStr : string) (now : Z) : Validation :=
  if JSDate.lt (normalize (Date_parse dateStr)) (normalize (Some now))
  then Invalid "Cannot apply for OD on past dates."
  else Valid.

(** The caller is the owner, or is found in the whitelist; the error of
    the lookup is not looked at. *)
Definition owner_or_admin (user : Claims) (owner : string) : Js unit :=
  if negb (bool_decide (sub user = owner)) then
    let? admin := await (from whitelist_lookup (Supabase.whitelist_by_email (email user))) in
    match admin with
    | Data _ => pure tt
    | Error _ => return_ (json 403 (JError "Unauthorized"))
    end
  else pure tt.

(** *** API endpoints (the handlers proper, after the middleware) *)

(** [GET /api/health] *)
Definition get_health : M Response :=
  ret (json 200 (JText "Server is running fine")).

(** [GET /api/timings/:year] *)
Definition get_timings (year : Z) : M Response :=
  try_catch (
    let? reply := await (from {| op_table := "year_period_timings"; op_verb := SELECT;
                                 op_single := false |}
                           (Supabase.timings_of_year year)) in
    let? data := orThrow reply in
    pure (json 200 (JTimings data))).

(** [GET /api/user/:id] *)
Definition get_user (user : Claims) (id : string) : M Response :=
  try_catch (
    let? _ := owner_or_admin user id in
    let? reply := await (from {| op_table := "users"; op_verb := SELECT; op_single := true |}
                           (Supabase.user_by_id id)) in
    match reply with
    | Error error =>
        if String.eqb (code error) "PGRST116"
        then return_ (json 404 (JError "User not found"))
        else throw error
    | Data data => pure (json 200 (JUser data))
    end).

(** [POST /api/user] *)
Definition post_user (user : Claims) (body : UserBody) : M Response :=
  try_catch (
    if negb (bool_decide (Some (sub user) = ub_id body)) then
      return_ (json 403 (JError "Cannot update other users"))
    else
      let? reply := await (from {| op_table := "users"; op_verb := UPSERT; op_single := true |}
                             (Supabase.user_upsert body)) in
      let? data := orThrow reply in
      pure (json 200 (JUser data))).

(** [POST /api/od/request] *)
Definition post_od_request (user : Claims) (body : ODBody) : M Response :=
  try_catch (
    if negb (bool_decide (b_user_id body = Some (sub user))) then
      return_ (json 403 (JError "User ID mismatch"))
    else
      let? validation := validatePeriods (b_year body) (b_periods body) (b_date body) in
      match validation with
      | Invalid errorMsg => return_ (json 400 (JError errorMsg))
      | Valid =>
          let? reply := await (fun w =>
            from od_insert_op (Supabase.od_insert (clock w) body) w) in
          let? data := orThrow reply in
          pure (json 201 (JOD data))
      end).

(** [GET /api/od/history/:userId] *)
Definition get_od_history (user : Claims) (userId : string) : M Response :=
  try_catch (
    let? _ := owner_or_admin user userId in
    let? reply := await (from {| op_table := "od_requests"; op_verb := SELECT;
                                 op_single := false |}
                           (Supabase.od_history userId)) in
    let? data := orThrow reply in
    pure (json 200 (JODs data))).

(** [GET /api/od/pending] *)
Definition get_od_pending (user : Claims) : M Response :=
  try_catch (
    let? reply := await (from {| op_table := "od_requests"; op_verb := SELECT;
                                 op_single := false |}
                           (Supabase.od_pending (department user))) in
    let? data := orThrow reply in
    pure (json 200 (JPending data))).

(** [PUT /api/od/review/:id] *)
Definition put_od_review (user : Claims) (id : nat) (body : ReviewBody) : M Response :=
  try_catch (
    match rb_reviewedBy body with
    | Some reviewedBy =>
        if negb (String.eqb reviewedBy (sub user)) then
          return_ (json 403 (JError "Reviewer ID mismatch"))
        else
          let? reply := await (fun w =>
            from od_update_op
              (Supabase.od_update id
                 {| Supabase.p_status := rb_status body;
                    Supabase.p_remarks := rb_remarks body;
                    Supabase.p_reviewed_by := reviewedBy;
                    Supabase.p_reviewed_at := clock w |}) w) in
          let? data := orThrow reply in
          pure (json 200 (JOD data))
    | None => return_ (json 403 (JError "Reviewer ID mismatch"))
    end).

(** [data.filter(r => r.status === s).length] *)
Definition count_status (s : string) (data : list ODRequest) : nat :=
  length (filter (fun r => od_status r = s) data).

(** [dist[key] = (dist[key] || 0) + 1] *)
Definition bump (key : string) (dist : gmap string nat) : gmap string nat :=
  <[key := default 0 (dist !! key) + 1]> dist.

(** The statistics object built from the rows fetched. *)
Definition summarize (data : list ODRequest) : Stats :=
  {| total := length data;
     approved := count_status "approved" data;
     pending := count_status "pending" data;
     rejected := count_status "rejected" data;
     deptDistribution := foldl (fun dist r => bump (od_department r) dist) ∅ data;
     categoryUsage := foldl (fun dist r => bump (od_category r) dist) ∅ data |}.

(** [GET /api/reports/summary] *)
Definition get_reports_summary (user : Claims) : M Response :=
  try_catch (
    let? reply := await (from {| op_table := "od_requests"; op_verb := SELECT;
                                 op_single := false |}
                           (Supabase.od_summary_rows (department user))) in
    let? data := orThrow reply in
    pure (json 200 (JStats (summarize data)))).

Definition csv_headers : string := "Reg Number,Dept,Year,Category,Date,Status" +:+ newline.

Definition csv_row (r : ODRequest) : string :=
  od_reg_number r +:+ "," +:+ od_department r +:+ "," +:+ pretty (od_year r) +:+ ","
    +:+ od_category r +:+ "," +:+ od_date r +:+ "," +:+ od_status r.

(** [GET /api/reports/export] *)
Definition get_reports_export (user : Claims) : M Response :=
  try_catch (
    let? reply := await (from {| op_table := "od_requests"; op_verb := SELECT;
                                 op_single := false |}
                           Supabase.od_export_rows) in
    let? data := orThrow reply in
    let rows := join newline (csv_row <$> data) in
    pure {| status := 200; payload := Csv (csv_headers +:+ rows) |}).

(** [GET /api/admin/whitelist] *)
Definition get_admin_whitelist : M Response :=
  try_catch (
    let? reply := await (from {| op_table := "admin_whitelist"; op_verb := SELECT;
                                 op_single := false |}
                           Supabase.whitelist_all) in
    let? data := orThrow reply in
    pure (json 200 (JAdmins data))).

(** [POST /api/admin/whitelist] *)
Definition post_admin_whitelist (body : AdminRow) : M Response :=
  try_catch (
    let? reply := await (from {| op_table := "admin_whitelist"; op_verb := INSERT;
                                 op_single := true |}
                           (Supabase.whitelist_insert body)) in
    let? data := orThrow reply in
    pure (json 201 (JAdmin data))).

(** [DELETE /api/admin/whitelist/:email] *)
Definition delete_admin_whitelist (email : string) : M Response :=
  try_catch (
    let? reply := await (from {| op_table := "admin_whitelist"; op_verb := DELETE;
                                 op_single := false |}
                           (Supabase.whitelist_delete email)) in
    let? _ := orThrow reply in
    pure {| status := 204; payload := NoContent |}).

(** [POST /api/admin/timings] *)
Definition post_admin_timings (body : list Timing) : M Response :=
  try_catch (
    let? reply := await (from {| op_table := "year_period_timings"; op_verb := UPSERT;
                                 op_single := false |}
                           (Supabase.timings_upsert body)) in
    let? data := orThrow reply in
    pure (json 200 (JTimings data))).

(** *** The routes: the middleware chain of each endpoint, from a
    request whose token [authenticate] has verified. *)

Inductive Route : Type :=
| GET_health
| GET_timings (year : Z)
| GET_user (id : string)
| POST_user (body : UserBody)
| POST_od_request (body : ODBody)
| GET_od_history (userId : string)
| GET_od_pending
| PUT_od_review (id : nat) (body : ReviewBody)
| GET_reports_summary
| GET_reports_export
| GET_admin_whitelist
| POST_admin_whitelist (body : AdminRow)
| DELETE_admin_whitelist (email : string)
| POST_admin_timings (body : list Timing).

(** The role a route is registered with, if any. *)
Definition required_role (r : Route) : option string :=
  match r with
  | POST_od_request _ => Some "user"
  | GET_od_pending | PUT_od_review _ _ | GET_reports_summary | GET_reports_export
  | GET_admin_whitelist | POST_admin_whitelist _ | DELETE_admin_whitelist _
  | POST_admin_timings _ => Some "admin"
  | _ => None
  end.

Definition handler (r : Route) (user : Claims) : M Response :=
  match r with
  | GET_health => get_health
  | GET_timings year => get_timings year
  | GET_user id => get_user user id
  | POST_user body => post_user user body
  | POST_od_request body => post_od_request user body
  | GET_od_history userId => get_od_history user userId
  | GET_od_pending => get_od_pending user
  | PUT_od_review id body => put_od_review user id body
  | GET_reports_summary => get_reports_summary user
  | GET_reports_export => get_reports_export user
  | GET_admin_whitelist => get_admin_whitelist
  | POST_admin_whitelist body => post_admin_whitelist body
  | DELETE_admin_whitelist email => delete_admin_whitelist email
  | POST_admin_timings body => post_admin_timings body
  end.

Definition serve (r : Route) (user : Claims) : M Response :=
  match required_role r with
  | Some role =>
      let* step := authorize role user in
      match step with
      | Next user' => handler r user'
      | Respond resp => ret resp
      end
  | None => handler r user
  end.
End Server.

(* ===================================================================== *)
(** ** The token verifier and the whole application                       *)
(* ===================================================================== *)

(** [String.prototype.split] on a one-character separator. *)
Fixpoint split (sep : Ascii.ascii) (s : string) : list string :=
  match s with
  | EmptyString => [EmptyString]
  | String c rest =>
      if Ascii.eqb c sep then EmptyString :: split sep rest
      else
        match split sep rest with
        | piece :: pieces => String c piece :: pieces
        | [] => [String c EmptyString]
        end
  end.

Definition space : Ascii.ascii := Ascii.ascii_of_nat 32.

Section Application.
(** [jwt.verify(token, supabaseJwtSecret)]: the decoded claims, or
    nothing when the library throws. *)
Variable jwt_verify : string -> option Claims.
Variable Date_parse : string -> JSDate.Num.
Variable LocalTZA : Z.

(** The [authenticate] middleware, on the value of the Authorization
    header ([None] when the request has none). *)
Definition authenticate (authHeader : option string) : Step :=
  match authHeader with
  | None => Respond (json 401 (JError "No token provided"))
  | Some authHeader =>
      if negb (String.prefix "Bearer " authHeader) then
        Respond (json 401 (JError "No token provided"))
      else
        match split space authHeader !! 1 with
        | Some token =>
            match jwt_verify token with
            | Some decoded => Next decoded
            | None => Respond (json 401 (JError "Invalid token"))
            end
        | None => Respond (json 401 (JError "Invalid token"))
        end
  end.

(** A request as the application sees it: the routes are registered
    with [authenticate] first, except [GET /api/health]. *)
Definition app (authHeader : option string) (r : Route) : M Response :=
  match r with
  | GET_health => get_health
  | _ =>
      match authenticate authHeader with
      | Next user => serve Date_parse LocalTZA r user
      | Respond resp => ret resp
      end
  end.
End Application.

(** The failure scheduled for the [n]-th store call to come, if any. *)
Definition fault_at (n : nat) (w : World) : option StoreError :=
  default None (faults w !! n).

(** The world after a call that left the store as it was. *)
Definition after_call (op : StoreOp) (err : option StoreError) (w : World) : World :=
  {| db := db w; clock := clock w; faults := tail (faults w);
     trace := trace w ++ [{| call_op := op; call_error := err |}] |}.

(** The log entries a computation adds to the world it starts from. *)
Definition calls {A} (m : M A) (w : World) : list Call :=
  drop (length (trace w)) (trace (m w).2).

(** The world with another table of timings. *)
Definition with_timings (rows : list Timing) (w : World) : World :=
  {| db := {| admin_whitelist := admin_whitelist (db w);
              users := users (db w);
              year_period_timings := rows;
              od_requests := od_requests (db w) |};
     clock := clock w; faults := faults w; trace := trace w |}.

(* ===================================================================== *)
(** ** Notions used in the statements                                     *)
(* ===================================================================== *)

(** The whitelist lookup of the middleware and of the ownership checks:
    a row when the store serves the call and the email is listed. *)
Definition lookup_error (mail : string) (w : World) : option StoreError :=
  match fault_at 0 w with
  | Some e => Some e
  | None =>
      match admin_whitelist (db w) !! mail with
      | Some _ => None
      | None => Some Supabase.PGRST116
      end
  end.

Definition lookup_reply (mail : string) (w : World) : Reply AdminRow :=
  match fault_at 0 w with
  | Some e => Error e
  | None =>
      match admin_whitelist (db w) !! mail with
      | Some d => Data {| a_email := mail; a_department := d |}
      | None => Error Supabase.PGRST116
      end
  end.

(** The row the store makes of a request of [user] at the time of [w]. *)
Definition created_row (user : Claims) (body : ODBody) (w : World) : ODRequest :=
  Supabase.od_row_of_body (Supabase.fresh_od_id (od_requests (db w))) (sub user) (clock w) body.

(** The patch the review handler sends. *)
Definition review_patch (user : Claims) (body : ReviewBody) (w : World) : Supabase.ODPatch :=
  {| Supabase.p_status := rb_status body;
     Supabase.p_remarks := rb_remarks body;
     Supabase.p_reviewed_by := sub user;
     Supabase.p_reviewed_at := clock w |}.



(** No character of [s] is [c]. *)
Fixpoint free_of (c : Ascii.ascii) (s : string) : bool :=
  match s with
  | EmptyString => true
  | String a rest => negb (Ascii.eqb a c) && free_of c rest
  end.

(** The rows with one of the three statuses the summary counts. *)
Definition known_status (r : ODRequest) : Prop :=
  od_status r = "approved" \/ od_status r = "pending" \/ od_status r = "rejected".

#[global] Instance known_status_dec r : Decision (known_status r).
Proof. unfold known_status. apply _. Defined.

(** The names every JavaScript object inherits from [Object.prototype]:
    on a key of that name, [dist[key] || 0] does not read a count. *)
Definition prototype_property (key : string) : bool :=
  bool_decide (key ∈ ["constructor"; "__proto__"; "hasOwnProperty"; "isPrototypeOf";
                      "propertyIsEnumerable"; "toLocaleString"; "toString"; "valueOf";
                      "__defineGetter__"; "__defineSetter__"; "__lookupGetter__";
                      "__lookupSetter__"]).

Definition od_select : StoreOp :=
  {| op_table := "od_requests"; op_verb := SELECT; op_single := false |}.

(** The routes that only read. *)
Definition reads_only (r : Route) : bool :=
  match r with
  | GET_health | GET_timings _ | GET_user _ | GET_od_history _ | GET_od_pending
  | GET_reports_summary | GET_reports_export | GET_admin_whitelist => true
  | _ => false
  end.

(** The tables a route may write. *)
Definition writes_users (r : Route) : bool :=
  match r with POST_user _ => true | _ => false end.
Definition writes_whitelist (r : Route) : bool :=
  match r with POST_admin_whitelist _ | DELETE_admin_whitelist _ => true | _ => false end.
Definition writes_timings (r : Route) : bool :=
  match r with POST_admin_timings _ => true | _ => false end.
Definition writes_od_requests (r : Route) : bool :=
  match r with POST_od_request _ | PUT_od_review _ _ => true | _ => false end.

(** The tables of [s'] are those of [s], except the ones [r] may write. *)
Definition framed (r : Route) (s s' : Store) : Prop :=
  (writes_users r = false -> users s' = users s) /\
  (writes_whitelist r = false -> admin_whitelist s' = admin_whitelist s) /\
  (writes_timings r = false -> year_period_timings s' = year_period_timings s) /\
  (writes_od_requests r = false -> od_requests s' = od_requests s).

(** [r'] is [r] with at most its review columns changed. *)
Definition same_request (r r' : ODRequest) : Prop :=
  od_id r' = od_id r /\ od_user_id r' = od_user_id r /\
  od_reg_number r' = od_reg_number r /\ od_year r' = od_year r /\
  od_periods r' = od_periods r /\ od_date r' = od_date r /\
  od_department r' = od_department r /\ od_category r' = od_category r /\
  od_submitted_at r' = od_submitted_at r.

(** In a log, a failed call other than a whitelist lookup is the last
    call. *)
Definition stops_at_failure (cs : list Call) : Prop :=
  forall i c, cs !! i = Some c -> call_op c <> whitelist_lookup ->
              is_Some (call_error c) -> S i = length cs.

(* ===================================================================== *)
(** ** The server without access control (index.js)                       *)
(* ===================================================================== *)

(** The handlers of [index.js]: the same endpoints registered without
    [authenticate] and [authorize], and without the ownership checks and
    the department filters. *)
Module Legacy.

(** The patch of the review: [reviewed_by] is whatever the body says,
    and is dropped with the other [undefined] properties. *)
Definition od_apply (status remarks reviewed_by : option string) (reviewed_at : Z)
    (r : ODRequest) : ODRequest :=
  {| od_id := od_id r;
     od_user_id := od_user_id r;
     od_reg_number := od_reg_number r;
     od_year := od_year r;
     od_periods := od_periods r;
     od_date := od_date r;
     od_department := od_department r;
     od_category := od_category r;
     od_status := default (od_status r) status;
     od_remarks := match remarks with Some m => Some m | None => od_remarks r end;
     od_reviewed_by :=
       match reviewed_by with Some b => Some b | None => od_reviewed_by r end;
     od_reviewed_at := Some reviewed_at;
     od_submitted_at := od_submitted_at r |}.

(** [from('od_requests').update(patch).eq('id', id).select().single()] *)
Definition od_update (id : nat) (body : ReviewBody) (reviewed_at : Z) (s : Store)
  : Reply ODRequest * Store :=
  let patch := od_apply (rb_status body) (rb_remarks body) (rb_reviewedBy body) reviewed_at in
  match filter (fun r => od_id r = id) (od_requests s) with
  | [r] =>
      (Data (patch r),
       Supabase.with_od_requests
         ((fun r => if bool_decide (od_id r = id) then patch r else r) <$> od_requests s) s)
  | _ => (Error Supabase.PGRST116, s)
  end.

Section Handlers.
Variable Date_parse : string -> JSDate.Num.
Variable LocalTZA : Z.

(** [GET /api/health] *)
Definition get_health : M Response :=
  ret (json 200 (JText "Server is running")).

(** [GET /api/user/:id] *)
Definition get_user (id : string) : M Response :=
  try_catch (
    let? reply := await (from {| op_table := "users"; op_verb := SELECT; op_single := true |}
                           (Supabase.user_by_id id)) in
    match reply with
    | Error error =>
        if String.eqb (code error) "PGRST116"
        then return_ (json 404 (JError "User not found"))
        else throw error
    | Data data => pure (json 200 (JUser data))
    end).

(** [POST /api/user] *)
Definition post_user (body : UserBody) : M Response :=
  try_catch (
    let? reply := await (from {| op_table := "users"; op_verb := UPSERT; op_single := true |}
                           (Supabase.user_upsert body)) in
    let? data := orThrow reply in
    pure (json 200 (JUser data))).

(** [POST /api/od/request] *)
Definition post_od_request (body : ODBody) : M Response :=
  try_catch (
    let? validation := validatePeriods Date_parse LocalTZA
                         (b_year body) (b_periods body) (b_date body) in
    match validation with
    | Invalid errorMsg => return_ (json 400 (JError errorMsg))
    | Valid =>
        let? reply := await (fun w =>
          from od_insert_op (Supabase.od_insert (clock w) body) w) in
        let? data := orThrow reply in
        pure (json 201 (JOD data))
    end).

(** [GET /api/od/history/:userId] *)
Definition get_od_history (userId : string) : M Response :=
  try_catch (
    let? reply := await (from {| op_table := "od_requests"; op_verb := SELECT;
                                 op_single := false |}
                           (Supabase.od_history userId)) in
    let? data := orThrow reply in
    pure (json 200 (JODs data))).

(** [GET /api/od/pending] *)
Definition get_od_pending : M Response :=
  try_catch (
    let? reply := await (from {| op_table := "od_requests"; op_verb := SELECT;
                                 op_single := false |}
                           (Supabase.od_pending None)) in
    let? data := orThrow reply in
    pure (json 200 (JPending data))).

(** [PUT /api/od/review/:id] *)
Definition put_od_review (id : nat) (body : ReviewBody) : M Response :=
  try_catch (
    let? reply := await (fun w => from od_update_op (od_update id body (clock w)) w) in
    let? data := orThrow reply in
    pure (json 200 (JOD data))).

(** [GET /api/reports/summary] *)
Definition get_reports_summary : M Response :=
  try_catch (
    let? reply := await (from {| op_table := "od_requests"; op_verb := SELECT;
                                 op_single := false |}
                           (Supabase.od_summary_rows None)) in
    let? data := orThrow reply in
    pure (json 200 (JStats (summarize data)))).

(** The handler of a route in [index.js]; the whitelist and timings
    management routes do not exist there.  [GET /api/timings/:year] and
    [GET /api/reports/export] are written as in the server with access
    control. *)
Definition handler (r : Route) : option (M Response) :=
  match r with
  | GET_health => Some get_health
  | GET_timings year => Some (get_timings year)
  | GET_user id => Some (get_user id)
  | POST_user body => Some (post_user body)
  | POST_od_request body => Some (post_od_request body)
  | GET_od_history userId => Some (get_od_history userId)
  | GET_od_pending => Some get_od_pending
  | PUT_od_review id body => Some (put_od_review id body)
  | GET_reports_summary => Some get_reports_summary
  | GET_reports_export =>
      Some (get_reports_export {| sub := EmptyString; email := EmptyString;
                                  department := None |})
  | GET_admin_whitelist | POST_admin_whitelist _ | DELETE_admin_whitelist _
  | POST_admin_timings _ => None
  end.
End Handlers.
End Legacy.

(** The checks that the server with access control adds in its handlers
    let the request through. *)
Definition guard_passes (r : Route) (user : Claims) : Prop :=
  match r with
  | GET_user id => sub user = id
  | POST_user body => ub_id body = Some (sub user)
  | POST_od_request body => b_user_id body = Some (sub user)
  | GET_od_history userId => sub user = userId
  | PUT_od_review _ body => rb_reviewedBy body = Some (sub user)
  | GET_od_pending | GET_reports_summary => truthy (department user) = false
  | _ => True
  end.

(* ===================================================================== *)
(** ** Sample data                                                        *)
(* ===================================================================== *)

Module Sample.
Local Open Scope Z_scope.

Definition digit (c : Ascii.ascii) : option Z :=
  let n := Ascii.nat_of_ascii c in
  if ((48 <=? n) && (n <=? 57))%nat then Some (Z.of_nat (n - 48)) else None.

Fixpoint digits (acc : Z) (s : string) : option Z :=
  match s with
  | EmptyString => Some acc
  | String c rest =>
      match digit c with
      | Some d => digits (10 * acc + d) rest
      | None => None
      end
  end.

(** A date parser for the examples: a calendar date [YYYY-MM-DD] is the
    UTC midnight of that day, as ECMAScript reads the date-only form;
    anything else is an Invalid Date. *)
Definition parse_iso_date (s : string) : JSDate.Num :=
  if negb ((String.length s =? 10)%nat
           && String.eqb (String.substring 4 1 s) "-"
           && String.eqb (String.substring 7 1 s) "-") then JSDate.NaN
  else
    match digits 0 (String.substring 0 4 s),
          digits 0 (String.substring 5 2 s),
          digits 0 (String.substring 8 2 s) with
    | Some y, Some m, Some d =>
        if (1 <=? m) && (m <=? 12) && (1 <=? d) && (d <=? 31)
        then JSDate.TimeClip (JSDate.MakeDate (JSDate.MakeDay y (m - 1) d) 0)
        else JSDate.NaN
    | _, _, _ => JSDate.NaN
    end.

(** Indian Standard Time, UTC+05:30. *)
Definition IST : Z := 19800000.

(** 2 November 2026, 10:00 UTC. *)
Definition today : Z := JSDate.MakeDate (JSDate.MakeDay 2026 10 2) 36000000.

Definition hod_cse : Claims :=
  {| sub := "a1"; email := "hod.cse@kpriet.ac.in"; department := None |}.
Definition principal : Claims :=
  {| sub := "a2"; email := "principal@kpriet.ac.in"; department := None |}.
Definition student : Claims :=
  {| sub := "u1"; email := "21cs001@kpriet.ac.in"; department := None |}.
Definition outsider : Claims :=
  {| sub := "u9"; email := "someone@example.com"; department := None |}.

Definition od_cse : ODRequest :=
  {| od_id := 1%nat; od_user_id := "u1"; od_reg_number := "21CS001"; od_year := 2;
     od_periods := [1; 2]; od_date := "2026-10-20"; od_department := "CSE";
     od_category := "Symposium"; od_status := "pending"; od_remarks := None;
     od_reviewed_by := None; od_reviewed_at := None; od_submitted_at := 1000 |}.

Definition od_ece : ODRequest :=
  {| od_id := 2%nat; od_user_id := "u2"; od_reg_number := "21EC007"; od_year := 3;
     od_periods := [4]; od_date := "2026-10-21"; od_department := "ECE";
     od_category := "Sports"; od_status := "approved"; od_remarks := None;
     od_reviewed_by := Some "a2"; od_reviewed_at := Some 2500; od_submitted_at := 2000 |}.

Definition store : Store :=
  {| admin_whitelist :=
       <["hod.cse@kpriet.ac.in" := Some "CSE"]> (<["principal@kpriet.ac.in" := None]> ∅);
     users :=
       <["u1" := {| u_id := "u1"; u_name := "Asha"; u_email := "21cs001@kpriet.ac.in";
                    u_department := "CSE"; u_year := 2 |}]> ∅;
     year_period_timings := [];
     od_requests := [od_cse; od_ece] |}.

(** A world in which the store serves every call. *)
Definition world : World :=
  {| db := store; clock := today; faults := []; trace := [] |}.

(** The same world, with the next call to the store failing. *)
Definition outage : StoreError :=
  {| code := "08006"; message := "connection failure" |}.

Definition world_down : World :=
  {| db := store; clock := today; faults := [Some outage]; trace := [] |}.

Definition request_2099 : ODBody :=
  {| b_user_id := Some "u1"; b_reg_number := "21CS001"; b_year := 2; b_periods := [1; 2];
     b_date := "2099-01-01"; b_department := "CSE"; b_od_category := "Symposium";
     b_status := None; b_remarks := None; b_reviewed_by := None; b_reviewed_at := None |}.

(** The same request with a status of its own in the body. *)
Definition request_self_approved : ODBody :=
  {| b_user_id := Some "u1"; b_reg_number := "21CS001"; b_year := 2; b_periods := [1; 2];
     b_date := "2099-01-01"; b_department := "CSE"; b_od_category := "Symposium";
     b_status := Some "approved"; b_remarks := None; b_reviewed_by := None;
     b_reviewed_at := None |}.

(** A request whose body carries review columns of its own. *)
Definition request_forged_review : ODBody :=
  {| b_user_id := Some "u1"; b_reg_number := "21CS001"; b_year := 2; b_periods := [1; 2];
     b_date := "2099-01-01"; b_department := "CSE"; b_od_category := "Symposium";
     b_status := Some "approved"; b_remarks := Some "ok"; b_reviewed_by := Some "a2";
     b_reviewed_at := Some 1000 |}.

Definition approve_by_a1 : ReviewBody :=
  {| rb_status := Some "approved"; rb_remarks := Some "ok"; rb_reviewedBy := Some "a1" |}.

(** The two administrators as the routes see them after
    [authorize('admin')]. *)
Definition hod_cse_in : Claims :=
  {| sub := "a1"; email := "hod.cse@kpriet.ac.in"; department := Some "CSE" |}.
Definition principal_in : Claims :=
  {| sub := "a2"; email := "principal@kpriet.ac.in"; department := None |}.

Definition request_yesterday : ODBody :=
  {| b_user_id := Some "u1"; b_reg_number := "21CS001"; b_year := 2; b_periods := [1; 2];
     b_date := "2026-11-01"; b_department := "CSE"; b_od_category := "Symposium";
     b_status := None; b_remarks := None; b_reviewed_by := None; b_reviewed_at := None |}.

(** A verifier for the examples: one token, of the student. *)
Definition verify (token : string) : option Claims :=
  if String.eqb token "good" then Some student else None.

Definition new_admin : AdminRow :=
  {| a_email := "hod.ece@kpriet.ac.in"; a_department := Some "ECE" |}.
Definition hod_ece : Claims :=
  {| sub := "a3"; email := "hod.ece@kpriet.ac.in"; department := None |}.

Definition profile_u1 : UserBody :=
  {| ub_id := Some "u1"; ub_name := "Asha K"; ub_email := "21cs001@kpriet.ac.in";
     ub_department := "CSE"; ub_year := 3 |}.

End Sample.

(* ===================================================================== *)
(** ** Facts: calendar arithmetic                                         *)
(* ===================================================================== *)

Module JSDateFacts.
Import JSDate.
Local Open Scope Z_scope.

Lemma YearFromDay_spec d :
  DayFromYear (YearFromDay d) <= d < DayFromYear (YearFromDay d + 1).
Proof.
  unfold YearFromDay.
  destruct (Z.ltb_spec d (DayFromYear (1970 + 400 * d / 146097))) as [Hlt|Hge].
  - unfold DayFromYear in *. Z.div_mod_to_equations. lia.
  - destruct (Z.leb_spec (DayFromYear (1970 + 400 * d / 146097 + 1)) d) as [Hle|Hgt].
    + unfold DayFromYear in *. Z.div_mod_to_equations. lia.
    + lia.
Qed.

Lemma DayFromYear_succ y : DayFromYear (y + 1) = DayFromYear y + DaysInYear y.
Proof.
  unfold DayFromYear, DaysInYear.
  destruct (Z.eqb_spec (y mod 4) 0); simpl;
    [destruct (Z.eqb_spec (y mod 100) 0); simpl;
      [destruct (Z.eqb_spec (y mod 400) 0); simpl|]|];
    Z.div_mod_to_equations; lia.
Qed.

Lemma DaysInYear_cases y : DaysInYear y = 365 + LeapOfYear y /\ 0 <= LeapOfYear y <= 1.
Proof.
  unfold LeapOfYear, DaysInYear.
  repeat match goal with |- context [negb ?b] => destruct b; simpl end; lia.
Qed.

Lemma DayFromYear_mono y z : y <= z -> DayFromYear y <= DayFromYear z.
Proof.
  intros H. unfold DayFromYear. Z.div_mod_to_equations. lia.
Qed.

(** The day within the year lies in the year. *)
Lemma DayWithinYear_range t :
  0 <= DayWithinYear t < 365 + InLeapYear t.
Proof.
  unfold DayWithinYear, InLeapYear, YearFromTime.
  pose proof (YearFromDay_spec (Day t)) as H.
  rewrite DayFromYear_succ in H.
  pose proof (DaysInYear_cases (YearFromDay (Day t))) as [H1 H2]. lia.
Qed.

Lemma MonthOfDay_range dwy leap : 0 <= MonthOfDay dwy leap <= 11.
Proof.
  unfold MonthOfDay.
  repeat match goal with |- context [?a <? ?b] => destruct (a <? b) end; lia.
Qed.

(** Taking a time apart and putting it together again gives its day. *)
Lemma MakeDay_components t :
  MakeDay (YearFromTime t) (MonthFromTime t) (DateFromTime t) = Day t.
Proof.
  unfold MakeDay, DateFromTime.
  pose proof (MonthOfDay_range (DayWithinYear t) (InLeapYear t)) as Hm.
  fold (MonthFromTime t) in Hm.
  rewrite (Z.div_small (MonthFromTime t) 12) by lia.
  rewrite (Z.mod_small (MonthFromTime t) 12) by lia.
  rewrite Z.add_0_r. fold (InLeapYear t).
  unfold DayWithinYear. lia.
Qed.

(** The calendar on some known days: the epoch, the day before it, a
    leap day and the day after it. *)
Example calendar_known_days :
  (YearFromTime 0, MonthFromTime 0, DateFromTime 0) = (1970, 0, 1) /\
  (YearFromTime (-1), MonthFromTime (-1), DateFromTime (-1)) = (1969, 11, 31) /\
  (YearFromTime 1709164800000, MonthFromTime 1709164800000, DateFromTime 1709164800000)
    = (2024, 1, 29) /\
  (YearFromTime 1709251200000, MonthFromTime 1709251200000, DateFromTime 1709251200000)
    = (2024, 2, 1).
Proof. split_and!; vm_compute; reflexivity. Qed.

End JSDateFacts.

(* ===================================================================== *)
(** ** Facts: the store client                                            *)
(* ===================================================================== *)

(** A call that is not scheduled to fail runs the query on the store. *)
Lemma from_served {A} (op : StoreOp) (query : Store -> Reply A * Store) (w : World) :
  fault_at 0 w = None ->
  from op query w =
    ((query (db w)).1,
     {| db := (query (db w)).2; clock := clock w; faults := tail (faults w);
        trace := trace w ++ [{| call_op := op; call_error := error_of (query (db w)).1 |}] |}).
Proof.
  unfold fault_at, from. intros H.
  destruct (faults w) as [|[e|] rest]; simpl in *;
    try discriminate; destruct (query (db w)); reflexivity.
Qed.

(** A call that is scheduled to fail leaves the store alone. *)
Lemma from_failed {A} (op : StoreOp) (query : Store -> Reply A * Store) (w : World) e :
  fault_at 0 w = Some e ->
  from op query w =
    (Error e,
     {| db := db w; clock := clock w; faults := tail (faults w);
        trace := trace w ++ [{| call_op := op; call_error := Some e |}] |}).
Proof.
  unfold fault_at, from. intros H.
  destruct (faults w) as [|[e'|] rest]; simpl in *; try discriminate.
  congruence.
Qed.

Lemma whitelist_by_email_reply (mail : string) (s : Store) :
  Supabase.whitelist_by_email mail s =
    (match admin_whitelist s !! mail with
     | Some d => Data {| a_email := mail; a_department := d |}
     | None => Error Supabase.PGRST116
     end, s).
Proof.
  unfold Supabase.whitelist_by_email.
  destruct (admin_whitelist s !! mail); reflexivity.
Qed.

(** Case analysis on the next call of the goal: failed or served. *)
Ltac run_call :=
  match goal with
  | |- context [from ?op ?q ?w0] =>
      let e := fresh "e" in
      let Hf := fresh "Hf" in
      destruct (fault_at 0 w0) as [e|] eqn:Hf;
      [rewrite (from_failed op q w0 e Hf) | rewrite (from_served op q w0 Hf)]
  end.

(* ===================================================================== *)
(** ** Facts: the role authorizer                                         *)
(* ===================================================================== *)

Lemma fault_at_after_call n op err w :
  fault_at n (after_call op err w) = fault_at (S n) w.
Proof.
  unfold fault_at, after_call. simpl. destruct (faults w); reflexivity.
Qed.

Lemma whitelist_lookup_run (mail : string) (w : World) :
  from whitelist_lookup (Supabase.whitelist_by_email mail) w =
    (lookup_reply mail w, after_call whitelist_lookup (lookup_error mail w) w).
Proof.
  unfold lookup_reply, lookup_error.
  destruct (fault_at 0 w) as [e|] eqn:Hf.
  - rewrite (from_failed _ _ _ _ Hf). reflexivity.
  - rewrite (from_served _ _ _ Hf), whitelist_by_email_reply. simpl.
    destruct (admin_whitelist (db w) !! mail); reflexivity.
Qed.

Section AuthorizeFacts.
Variable user : Claims.
Variable w : World.

Lemma authorize_world role :
  (authorize role user w).2 =
    after_call whitelist_lookup (lookup_error (email user) w) w.
Proof.
  unfold authorize, bind. rewrite whitelist_lookup_run.
  destruct (String.eqb role "admin"); [destruct (lookup_reply _ _); reflexivity|].
  destruct (String.eqb role "user"); [|reflexivity].
  destruct (_ && _); reflexivity.
Qed.

Lemma authorize_admin_served :
  fault_at 0 w = None ->
  (authorize "admin" user w).1 =
    match admin_whitelist (db w) !! email user with
    | Some d => Next {| sub := sub user; email := email user; department := d |}
    | None => Respond (json 403 (JError "Admin access required"))
    end.
Proof.
  intros H. unfold authorize, bind. rewrite whitelist_lookup_run.
  unfold lookup_reply. rewrite H. simpl.
  destruct (admin_whitelist (db w) !! email user); reflexivity.
Qed.

Lemma authorize_user_served :
  fault_at 0 w = None ->
  (authorize "user" user w).1 =
    match admin_whitelist (db w) !! email user with
    | Some _ => Respond (json 403 (JError "User access required (KPRIET domain)"))
    | None =>
        if endsWith (email user) "@kpriet.ac.in" then Next user
        else Respond (json 403 (JError "User access required (KPRIET domain)"))
    end.
Proof.
  intros H. unfold authorize, bind. rewrite whitelist_lookup_run.
  unfold lookup_reply. rewrite H. simpl.
  destruct (admin_whitelist (db w) !! email user); simpl; [reflexivity|].
  destruct (endsWith (email user) "@kpriet.ac.in"); reflexivity.
Qed.

(** When the lookup itself fails, its error is dropped and the caller
    counts as not listed, for both roles. *)
Lemma authorize_lookup_failed e :
  fault_at 0 w = Some e ->
  (authorize "admin" user w).1 = Respond (json 403 (JError "Admin access required")) /\
  (authorize "user" user w).1 =
    if endsWith (email user) "@kpriet.ac.in" then Next user
    else Respond (json 403 (JError "User access required (KPRIET domain)")).
Proof.
  intros H. unfold authorize, bind. rewrite whitelist_lookup_run.
  unfold lookup_reply. rewrite H. simpl. split; [reflexivity|].
  destruct (endsWith (email user) "@kpriet.ac.in"); reflexivity.
Qed.
End AuthorizeFacts.

(** With the whitelist lookup served by the store:
    [authorize('admin')] calls [next()] exactly when the email of the
    identity is in the admin whitelist, then with the department of the
    matched entry attached to the request, and answers 403 'Admin access
    required' otherwise; [authorize('user')] calls [next()] exactly when
    the email is not in the whitelist and ends with the institutional
    domain, and answers 403 otherwise. *)
Theorem authorize_admin_and_user (user : Claims) (w : World) :
  fault_at 0 w = None ->
  let listed := admin_whitelist (db w) !! email user in
  ((exists user', (authorize "admin" user w).1 = Next user') <-> is_Some listed) /\
  (forall d, listed = Some d ->
     (authorize "admin" user w).1 =
       Next {| sub := sub user; email := email user; department := d |}) /\
  (listed = None ->
     (authorize "admin" user w).1 = Respond (json 403 (JError "Admin access required"))) /\
  ((exists user', (authorize "user" user w).1 = Next user') <->
     listed = None /\ endsWith (email user) "@kpriet.ac.in" = true) /\
  (~ (listed = None /\ endsWith (email user) "@kpriet.ac.in" = true) ->
     exists msg, (authorize "user" user w).1 = Respond (json 403 (JError msg))).
Proof.
  intros H listed.
  pose proof (authorize_admin_served user w H) as Ha.
  pose proof (authorize_user_served user w H) as Hu.
  fold listed in Ha, Hu. clearbody listed.
  split_and!.
  - split.
    + intros [u' Hu']. rewrite Hu' in Ha. destruct listed; [eauto | discriminate].
    + intros [d ->]. eauto.
  - intros d ->. exact Ha.
  - intros ->. exact Ha.
  - split.
    + intros [u' Hu']. rewrite Hu' in Hu.
      destruct listed; [discriminate|].
      destruct (endsWith (email user) "@kpriet.ac.in"); [split; reflexivity | discriminate].
    + intros [-> He]. rewrite He in Hu. eauto.
  - intros Hn. destruct listed.
    + eauto.
    + destruct (endsWith (email user) "@kpriet.ac.in").
      * exfalso. apply Hn. split; reflexivity.
      * eauto.
Qed.

Lemma authorize_admin_and_user_witness :
  fault_at 0 Sample.world = None /\
  (authorize "admin" Sample.hod_cse Sample.world).1 =
    Next {| sub := "a1"; email := "hod.cse@kpriet.ac.in"; department := Some "CSE" |}.
Proof.
  split; [reflexivity|].
  apply (authorize_admin_and_user Sample.hod_cse Sample.world); reflexivity.
Defined.

(** C1, as the code has it.  The middleware decides on the row that
    its whitelist lookup returns, and on nothing else.  The lookup
    returns the entry of the email when the store serves it and the
    email is in the whitelist; when the email is not in the whitelist,
    and also when the lookup itself fails, it returns no row, and the
    error is dropped.  [authorize('admin')] calls [next()] exactly when
    a row is returned, with the department of the row attached to the
    request, and answers 403 'Admin access required' otherwise;
    [authorize('user')] calls [next()] exactly when no row is returned
    and the email ends with the institutional domain, and answers 403
    otherwise. *)
Theorem authorize_follows_lookup (user : Claims) (w : World) :
  let listed := admin_whitelist (db w) !! email user in
  let found := match fault_at 0 w with Some _ => None | None => listed end in
  (fault_at 0 w = None -> found = listed) /\
  (forall e, fault_at 0 w = Some e -> found = None) /\
  ((exists user', (authorize "admin" user w).1 = Next user') <-> is_Some found) /\
  (forall d, found = Some d ->
     (authorize "admin" user w).1 =
       Next {| sub := sub user; email := email user; department := d |}) /\
  (found = None ->
     (authorize "admin" user w).1 = Respond (json 403 (JError "Admin access required"))) /\
  ((exists user', (authorize "user" user w).1 = Next user') <->
     found = None /\ endsWith (email user) "@kpriet.ac.in" = true) /\
  (~ (found = None /\ endsWith (email user) "@kpriet.ac.in" = true) ->
     exists msg, (authorize "user" user w).1 = Respond (json 403 (JError msg))).
Proof.
  intros listed found.
  assert (Ha : (authorize "admin" user w).1 =
               match found with
               | Some d => Next {| sub := sub user; email := email user; department := d |}
               | None => Respond (json 403 (JError "Admin access required"))
               end).
  { unfold found, listed. destruct (fault_at 0 w) as [e|] eqn:Hf.
    - apply (authorize_lookup_failed user w e Hf).
    - apply (authorize_admin_served user w Hf). }
  assert (Hu : (authorize "user" user w).1 =
               match found with
               | Some _ => Respond (json 403 (JError "User access required (KPRIET domain)"))
               | None =>
                   if endsWith (email user) "@kpriet.ac.in" then Next user
                   else Respond (json 403 (JError "User access required (KPRIET domain)"))
               end).
  { unfold found, listed. destruct (fault_at 0 w) as [e|] eqn:Hf.
    - apply (authorize_lookup_failed user w e Hf).
    - apply (authorize_user_served user w Hf). }
  assert (H0 : fault_at 0 w = None -> found = listed).
  { unfold found. intros ->. reflexivity. }
  assert (H1 : forall e, fault_at 0 w = Some e -> found = None).
  { unfold found. intros e ->. reflexivity. }
  clearbody found.
  split_and!.
  - exact H0.
  - exact H1.
  - split.
    + intros [u' Hu']. rewrite Hu' in Ha. destruct found; [eauto | discriminate].
    + intros [d Hd]. rewrite Hd in Ha. eauto.
  - intros d Hd. rewrite Hd in Ha. exact Ha.
  - intros Hd. rewrite Hd in Ha. exact Ha.
  - split.
    + intros [u' Hu']. rewrite Hu' in Hu.
      destruct found; [discriminate|].
      destruct (endsWith (email user) "@kpriet.ac.in"); [split; reflexivity | discriminate].
    + intros [Hd He]. rewrite Hd, He in Hu. eauto.
  - intros Hn. destruct found.
    + eauto.
    + destruct (endsWith (email user) "@kpriet.ac.in").
      * exfalso. apply Hn. split; reflexivity.
      * eauto.
Qed.

Lemma authorize_follows_lookup_witness :
  (authorize "admin" Sample.hod_cse Sample.world).1 =
    Next {| sub := "a1"; email := "hod.cse@kpriet.ac.in"; department := Some "CSE" |} /\
  (authorize "admin" Sample.hod_cse Sample.world_down).1 =
    Respond (json 403 (JError "Admin access required")).
Proof.
  split.
  - apply (authorize_follows_lookup Sample.hod_cse Sample.world). reflexivity.
  - apply (authorize_follows_lookup Sample.hod_cse Sample.world_down). reflexivity.
Defined.

(** C1 as stated fails.  The department head is in the whitelist and
    has an email of the institutional domain; while the store is down
    the lookup fails, and the middleware answers 403 on the admin role
    and calls [next()] on the user role. *)
Lemma failed_lookup_reverses_roles :
  admin_whitelist (db Sample.world_down) !! email Sample.hod_cse = Some (Some "CSE") /\
  endsWith (email Sample.hod_cse) "@kpriet.ac.in" = true /\
  (authorize "admin" Sample.hod_cse Sample.world_down).1
    = Respond (json 403 (JError "Admin access required")) /\
  (authorize "user" Sample.hod_cse Sample.world_down).1 = Next Sample.hod_cse.
Proof. split_and!; vm_compute; reflexivity. Qed.

(** C10.  For a role tag other than 'admin' and 'user' the middleware
    calls [next()] with the request as it came, whoever the identity is
    and whatever the whitelist or the store answers; no 403 is produced. *)
Theorem authorize_other_role (role : string) (user : Claims) (w : World) :
  role <> "admin" -> role <> "user" ->
  (authorize role user w).1 = Next user.
Proof.
  intros Ha Hu. unfold authorize, bind.
  destruct (from whitelist_lookup (Supabase.whitelist_by_email (email user)) w) as [r w'].
  apply String.eqb_neq in Ha, Hu. rewrite Ha, Hu. reflexivity.
Qed.

Lemma authorize_other_role_witness :
  (authorize "moderator" Sample.outsider Sample.world_down).1 = Next Sample.outsider.
Proof.
  apply authorize_other_role; discriminate.
Defined.

(* ===================================================================== *)
(** ** Facts: the period/date validator                                   *)
(* ===================================================================== *)

Section NormalizeFacts.
Import JSDate JSDateFacts.
Local Open Scope Z_scope.
Variable LocalTZA : Z.

Lemma normalize_NaN : normalize LocalTZA NaN = NaN.
Proof. reflexivity. Qed.

Lemma Day_bounds t : Day t * msPerDay <= t < Day t * msPerDay + msPerDay.
Proof. unfold Day, msPerDay. Z.div_mod_to_equations. lia. Qed.

Lemma YearFromDay_ge y d : DayFromYear y <= d -> y <= YearFromDay d.
Proof.
  intros H. pose proof (YearFromDay_spec d) as [_ Hd].
  destruct (Z_lt_le_dec (YearFromDay d) y) as [Hlt|]; [|assumption].
  pose proof (DayFromYear_mono (YearFromDay d + 1) y). lia.
Qed.

Lemma YearFromDay_lt y d : d < DayFromYear y -> YearFromDay d < y.
Proof.
  intros H. pose proof (YearFromDay_spec d) as [Hd _].
  destruct (Z_lt_le_dec (YearFromDay d) y) as [|Hge]; [assumption|].
  pose proof (DayFromYear_mono y (YearFromDay d)). lia.
Qed.

(** Outside the years 0 to 99 the normalized date is the local midnight
    of the same local day. *)
Lemma normalize_midnight t :
  ~ 0 <= YearFromTime (LocalTime LocalTZA t) <= 99 ->
  - maxTime + msPerDay <= t <= maxTime ->
  normalize LocalTZA (Some t) =
    Some (Day (LocalTime LocalTZA t) * msPerDay - LocalTZA).
Proof.
  intros Hy Ht. unfold normalize, getFullYear, getMonth, getDate, new_Date_ymd.
  set (lt := LocalTime LocalTZA t) in *.
  destruct ((0 <=? YearFromTime lt) && (YearFromTime lt <=? 99)) eqn:E.
  - exfalso. apply Hy. lia.
  - clear E. rewrite MakeDay_components. unfold UTC, MakeDate, TimeClip.
    pose proof (Day_bounds lt) as Hb. unfold lt, LocalTime in Hb |- *.
    destruct (Z.leb_spec (Z.abs (Day (t + LocalTZA) * msPerDay + 0 - LocalTZA)) maxTime) as [_|Hbad].
    + f_equal. lia.
    + exfalso. unfold maxTime, msPerDay in *. lia.
Qed.

(** A date in the years 0 to 99 is normalized into the twentieth
    century. *)
Lemma normalize_two_digit_year t :
  - msPerDay <= LocalTZA <= msPerDay ->
  0 <= YearFromTime (LocalTime LocalTZA t) <= 99 ->
  exists v, normalize LocalTZA (Some t) = Some v /\
            v + LocalTZA < DayFromYear 2001 * msPerDay.
Proof.
  intros Hz Hy. unfold normalize, getFullYear, getMonth, getDate, new_Date_ymd.
  set (lt := LocalTime LocalTZA t) in *.
  destruct ((0 <=? YearFromTime lt) && (YearFromTime lt <=? 99)) eqn:E;
    [clear E | exfalso; lia].
  pose proof (DayWithinYear_range lt) as Hd.
  pose proof (MonthOfDay_range (DayWithinYear lt) (InLeapYear lt)) as Hm.
  fold (MonthFromTime lt) in Hm.
  assert (Hdate : 1 <= DateFromTime lt <= 31).
  { unfold DateFromTime, MonthFromTime, MonthOfDay, DaysBeforeMonth, InLeapYear, LeapOfYear in *.
    destruct (DaysInYear (YearFromTime lt) =? 366);
    repeat match goal with
           | |- context [?a <? ?b] => destruct (Z.ltb_spec a b)
           end; lia. }
  assert (Hday : DayFromYear 1900 <=
                 MakeDay (1900 + YearFromTime lt) (MonthFromTime lt) (DateFromTime lt)
                 < DayFromYear 2001).
  { unfold MakeDay.
    rewrite (Z.div_small (MonthFromTime lt) 12) by lia.
    rewrite (Z.mod_small (MonthFromTime lt) 12) by lia.
    rewrite Z.add_0_r.
    pose proof (DayFromYear_mono 1900 (1900 + YearFromTime lt)).
    pose proof (DayFromYear_mono (1900 + YearFromTime lt) 1999).
    pose proof (DaysInYear_cases (1900 + YearFromTime lt)) as [_ Hl].
    assert (0 <= DaysBeforeMonth (MonthFromTime lt) (LeapOfYear (1900 + YearFromTime lt)) <= 335).
    { unfold DaysBeforeMonth. destruct (MonthFromTime lt) as [|p|p]; [lia| |lia].
      do 4 (destruct p as [p|p|]; try lia). }
    change (DayFromYear 1999) with 10592 in *.
    change (DayFromYear 2001) with 11323.
    change (DayFromYear 1900) with (-25567) in *. lia. }
  unfold UTC, MakeDate, TimeClip.
  set (day := MakeDay _ _ _) in *.
  change (DayFromYear 1900) with (-25567) in *.
  change (DayFromYear 2001) with 11323 in *.
  destruct (Z.leb_spec (Z.abs (day * msPerDay + 0 - LocalTZA)) maxTime) as [_|Hbad].
  - eexists; split; [reflexivity|]. unfold msPerDay in *. lia.
  - exfalso. unfold maxTime, msPerDay in *. lia.
Qed.

(** The comparison of the two normalized dates is the comparison of the
    two local days, once the clock is in this century. *)
Lemma past_date_check t now :
  - msPerDay <= LocalTZA <= msPerDay ->
  - maxTime + msPerDay <= t <= maxTime ->
  DayFromYear 2001 <= Day (LocalTime LocalTZA now) ->
  now <= maxTime ->
  lt (normalize LocalTZA (Some t)) (normalize LocalTZA (Some now)) =
    (Day (LocalTime LocalTZA t) <? Day (LocalTime LocalTZA now)).
Proof.
  intros Hz Ht Hnow Hmax.
  pose proof (YearFromDay_ge 2001 _ Hnow) as Hyear.
  pose proof (Day_bounds (LocalTime LocalTZA now)) as Hb.
  change (DayFromYear 2001) with 11323 in Hnow.
  rewrite (normalize_midnight now).
  2: { unfold YearFromTime. lia. }
  2: { unfold LocalTime, maxTime, msPerDay in *. lia. }
  destruct (Z_le_dec 0 (YearFromTime (LocalTime LocalTZA t))) as [H0|H0];
    [destruct (Z_le_dec (YearFromTime (LocalTime LocalTZA t)) 99) as [H99|H99]|].
  - destruct (normalize_two_digit_year t Hz (conj H0 H99)) as (v & -> & Hv).
    assert (Hd : Day (LocalTime LocalTZA t) < DayFromYear 100).
    { pose proof (YearFromDay_spec (Day (LocalTime LocalTZA t))) as [_ Hs].
      pose proof (DayFromYear_mono (YearFromDay (Day (LocalTime LocalTZA t)) + 1) 100).
      unfold YearFromTime in H99. lia. }
    change (DayFromYear 100) with (-683003) in Hd.
    change (DayFromYear 2001) with 11323 in Hv.
    unfold lt.
    destruct (Z.ltb_spec v (Day (LocalTime LocalTZA now) * msPerDay - LocalTZA));
      destruct (Z.ltb_spec (Day (LocalTime LocalTZA t)) (Day (LocalTime LocalTZA now)));
      try reflexivity; exfalso; unfold msPerDay in *; lia.
  - rewrite (normalize_midnight t) by (try assumption; lia).
    unfold lt.
    destruct (Z.ltb_spec (Day (LocalTime LocalTZA t) * msPerDay - LocalTZA)
                (Day (LocalTime LocalTZA now) * msPerDay - LocalTZA));
      destruct (Z.ltb_spec (Day (LocalTime LocalTZA t)) (Day (LocalTime LocalTZA now)));
      try reflexivity; exfalso; unfold msPerDay in *; lia.
  - rewrite (normalize_midnight t) by (try assumption; lia).
    unfold lt.
    destruct (Z.ltb_spec (Day (LocalTime LocalTZA t) * msPerDay - LocalTZA)
                (Day (LocalTime LocalTZA now) * msPerDay - LocalTZA));
      destruct (Z.ltb_spec (Day (LocalTime LocalTZA t)) (Day (LocalTime LocalTZA now)));
      try reflexivity; exfalso; unfold msPerDay in *; lia.
Qed.
End NormalizeFacts.

(** Why the range of the request date matters: in a zone east of
    Greenwich the local midnight of the first day of the range of time
    values is below the range, and the normalized date is an Invalid
    Date. *)
Example normalize_first_day_clipped :
  JSDate.TimeClip (- JSDate.maxTime) = Some (- JSDate.maxTime)%Z /\
  normalize Sample.IST (Some (- JSDate.maxTime)%Z) = JSDate.NaN.
Proof. split; vm_compute; reflexivity. Qed.

Section ValidatorFacts.
Variable Date_parse : string -> JSDate.Num.
Variable LocalTZA : Z.

(** When the store serves the fetch of the timings, the rows fetched
    play no part in the verdict. *)
Lemma validatePeriods_served year periods dateStr w :
  fault_at 0 w = None ->
  validatePeriods Date_parse LocalTZA year periods dateStr w =
    (Normal (verdict Date_parse LocalTZA dateStr (clock w)),
     {| db := db w; clock := clock w; faults := tail (faults w);
        trace := trace w ++ [{| call_op := timings_select; call_error := None |}] |}).
Proof.
  intros H. unfold validatePeriods, bindJ, await, bind, verdict.
  rewrite (from_served _ _ _ H). simpl.
  destruct (JSDate.lt _ _); reflexivity.
Qed.

(** When the fetch fails, the validator throws the error of the store. *)
Lemma validatePeriods_failed year periods dateStr w e :
  fault_at 0 w = Some e ->
  validatePeriods Date_parse LocalTZA year periods dateStr w =
    (Throw e,
     {| db := db w; clock := clock w; faults := tail (faults w);
        trace := trace w ++ [{| call_op := timings_select; call_error := Some e |}] |}).
Proof.
  intros H. unfold validatePeriods, bindJ, await, bind.
  rewrite (from_failed _ _ _ _ H). reflexivity.
Qed.

Lemma post_od_request_invalid user body w msg :
  b_user_id body = Some (sub user) ->
  fault_at 0 w = None ->
  verdict Date_parse LocalTZA (b_date body) (clock w) = Invalid msg ->
  (post_od_request Date_parse LocalTZA user body w).1 = json 400 (JError msg).
Proof.
  intros Hid Hf Hv. unfold post_od_request, try_catch, bindJ, bind.
  rewrite bool_decide_eq_true_2 by assumption. simpl.
  rewrite (validatePeriods_served _ _ _ _ Hf), Hv. reflexivity.
Qed.
(** A request that the validator accepts is not answered 400. *)
Lemma post_od_request_valid user body w :
  fault_at 0 w = None ->
  verdict Date_parse LocalTZA (b_date body) (clock w) = Valid ->
  status (post_od_request Date_parse LocalTZA user body w).1 <> 400.
Proof.
  intros Hf Hv. unfold post_od_request, try_catch, bindJ, bind.
  case_bool_decide as Hid; simpl; [|discriminate].
  rewrite (validatePeriods_served _ _ _ _ Hf), Hv. unfold await, bind.
  run_call; simpl; [discriminate|].
  unfold Supabase.od_insert. rewrite Hid. simpl. discriminate.
Qed.
End ValidatorFacts.

(** C4.  With the fetch of the timings served, for every year, period
    list and date string of a create-OD request: both the request date
    and the current date are normalized to local midnight; when the
    normalized request date is earlier than the normalized current date
    the validator refuses and the handler answers 400; otherwise the
    validator accepts and the handler does not answer 400; and the
    verdict is the same whatever rows the timings table holds.  For a
    request date that parses to a time value, the comparison of the two
    normalized dates is the comparison of the local day of the request
    date with the local day of the clock: earlier than today is refused,
    today or later is accepted.  (For that reading the clock is taken to
    be in this century, the zone offset within a day, and the request
    date a day or more above the lower end of the range of time values,
    so that its local midnight is a time value.) *)
Theorem past_dates_rejected
    (Date_parse : string -> JSDate.Num) (LocalTZA : Z)
    (user : Claims) (body : ODBody) (w : World) :
  fault_at 0 w = None ->
  let requestDate := Date_parse (b_date body) in
  let reqDateNormalized := normalize LocalTZA requestDate in
  let nowDateNormalized := normalize LocalTZA (Some (clock w)) in
  let validate := validatePeriods Date_parse LocalTZA (b_year body) (b_periods body) (b_date body) in
  (JSDate.lt reqDateNormalized nowDateNormalized = true ->
     (validate w).1 = Normal (Invalid "Cannot apply for OD on past dates.") /\
     (b_user_id body = Some (sub user) ->
      (post_od_request Date_parse LocalTZA user body w).1 =
        json 400 (JError "Cannot apply for OD on past dates."))) /\
  (JSDate.lt reqDateNormalized nowDateNormalized = false ->
     (validate w).1 = Normal Valid /\
     status (post_od_request Date_parse LocalTZA user body w).1 <> 400) /\
  (forall rows, (validate (with_timings rows w)).1 = (validate w).1) /\
  (forall t,
     requestDate = Some t ->
     (- JSDate.msPerDay <= LocalTZA <= JSDate.msPerDay)%Z ->
     (- JSDate.maxTime + JSDate.msPerDay <= t <= JSDate.maxTime)%Z ->
     (JSDate.DayFromYear 2001 <= JSDate.Day (JSDate.LocalTime LocalTZA (clock w)))%Z ->
     (clock w <= JSDate.maxTime)%Z ->
     JSDate.lt reqDateNormalized nowDateNormalized =
       (JSDate.Day (JSDate.LocalTime LocalTZA t)
          <? JSDate.Day (JSDate.LocalTime LocalTZA (clock w)))%Z).
Proof.
  intros Hf requestDate reqDateNormalized nowDateNormalized validate.
  unfold validate. split_and!.
  - intros Hlt.
    assert (Hv : verdict Date_parse LocalTZA (b_date body) (clock w) =
                 Invalid "Cannot apply for OD on past dates.").
    { unfold verdict. fold requestDate reqDateNormalized nowDateNormalized.
      rewrite Hlt. reflexivity. }
    split.
    + rewrite (validatePeriods_served _ _ _ _ _ _ Hf), Hv. reflexivity.
    + intros Hid. apply post_od_request_invalid; assumption.
  - intros Hge.
    assert (Hv : verdict Date_parse LocalTZA (b_date body) (clock w) = Valid).
    { unfold verdict. fold requestDate reqDateNormalized nowDateNormalized.
      rewrite Hge. reflexivity. }
    split.
    + rewrite (validatePeriods_served _ _ _ _ _ _ Hf), Hv. reflexivity.
    + apply post_od_request_valid; assumption.
  - intros rows.
    rewrite (validatePeriods_served _ _ _ _ _ (with_timings rows w)) by exact Hf.
    rewrite (validatePeriods_served _ _ _ _ _ w) by exact Hf. reflexivity.
  - intros t Hp Hz Ht Hnow Hmax. unfold reqDateNormalized, nowDateNormalized.
    rewrite Hp. apply past_date_check; assumption.
Qed.

Lemma past_dates_rejected_witness :
  fault_at 0 Sample.world = None /\
  (post_od_request Sample.parse_iso_date Sample.IST Sample.student Sample.request_yesterday
     Sample.world).1 = json 400 (JError "Cannot apply for OD on past dates.") /\
  JSDate.lt (normalize Sample.IST (Sample.parse_iso_date "2026-11-01"))
            (normalize Sample.IST (Some Sample.today)) =
    (JSDate.Day (JSDate.LocalTime Sample.IST 1793491200000)
       <? JSDate.Day (JSDate.LocalTime Sample.IST Sample.today))%Z.
Proof.
  pose proof (past_dates_rejected Sample.parse_iso_date Sample.IST Sample.student
                Sample.request_yesterday Sample.world eq_refl) as (Hpast & _ & _ & Hday).
  split_and!.
  - reflexivity.
  - assert (Hlt : JSDate.lt (normalize Sample.IST (Sample.parse_iso_date "2026-11-01"))
                    (normalize Sample.IST (Some Sample.today)) = true)
      by (vm_compute; reflexivity).
    destruct (Hpast Hlt) as [_ H400]. exact (H400 eq_refl).
  - apply (Hday 1793491200000%Z); vm_compute; repeat split;
      first [reflexivity | discriminate].
Defined.

(** C9.  A date string that parses to an Invalid Date is accepted: the
    components of the request date are [NaN], so is the normalized date,
    the comparison with [NaN] is false and the validator returns
    [{ valid: true }] (the fetch of the timings being served). *)
Theorem invalid_date_accepted
    (Date_parse : string -> JSDate.Num) (LocalTZA : Z)
    (year : Z) (periods : list Z) (dateStr : string) (w : World) :
  Date_parse dateStr = JSDate.NaN ->
  fault_at 0 w = None ->
  JSDate.getFullYear LocalTZA (Date_parse dateStr) = JSDate.NaN /\
  normalize LocalTZA (Date_parse dateStr) = JSDate.NaN /\
  (forall d, JSDate.lt JSDate.NaN d = false) /\
  (validatePeriods Date_parse LocalTZA year periods dateStr w).1 = Normal Valid.
Proof.
  intros Hp Hf. rewrite Hp. split_and!; try reflexivity.
  rewrite (validatePeriods_served _ _ _ _ _ _ Hf). unfold verdict. rewrite Hp. reflexivity.
Qed.

Lemma invalid_date_accepted_witness :
  (validatePeriods Sample.parse_iso_date Sample.IST 2 [1; 2]%Z "next friday" Sample.world).1
    = Normal Valid.
Proof.
  apply (invalid_date_accepted Sample.parse_iso_date Sample.IST); reflexivity.
Defined.

(* ===================================================================== *)
(** ** Facts: creating and reviewing OD requests                          *)
(* ===================================================================== *)

Section CreateFacts.
Variable Date_parse : string -> JSDate.Num.
Variable LocalTZA : Z.
Variable user : Claims.
Variable body : ODBody.
Variable w : World.

(** A body for somebody else is answered 403 before anything is asked
    of the store. *)
Lemma post_od_request_mismatch :
  b_user_id body <> Some (sub user) ->
  post_od_request Date_parse LocalTZA user body w =
    (json 403 (JError "User ID mismatch"), w).
Proof.
  intros H. unfold post_od_request, try_catch, bind.
  rewrite bool_decide_eq_false_2 by assumption. reflexivity.
Qed.

(** A request that passes the checks, with both store calls served. *)
Lemma post_od_request_created :
  b_user_id body = Some (sub user) ->
  fault_at 0 w = None -> fault_at 1 w = None ->
  verdict Date_parse LocalTZA (b_date body) (clock w) = Valid ->
  post_od_request Date_parse LocalTZA user body w =
    (json 201 (JOD (created_row user body w)),
     {| db := Supabase.with_od_requests
                (od_requests (db w) ++ [created_row user body w]) (db w);
        clock := clock w;
        faults := tail (tail (faults w));
        trace := (trace w ++ [{| call_op := timings_select; call_error := None |}])
                   ++ [{| call_op := od_insert_op; call_error := None |}] |}).
Proof.
  intros Hid H0 H1 Hv. unfold post_od_request, try_catch, bindJ, bind.
  rewrite bool_decide_eq_true_2 by assumption. simpl.
  rewrite (validatePeriods_served _ _ _ _ _ _ H0), Hv.
  unfold await, bind.
  rewrite from_served by (rewrite <- H1; apply (fault_at_after_call 0 timings_select None)).
  unfold Supabase.od_insert. rewrite Hid. reflexivity.
Qed.

(** Whatever the store does, a 201 carries a row of the caller that
    was appended to the table. *)
Lemma post_od_request_201 row w' :
  post_od_request Date_parse LocalTZA user body w = (json 201 (JOD row), w') ->
  od_user_id row = sub user /\
  od_requests (db w') = od_requests (db w) ++ [row] /\
  od_reviewed_by row = b_reviewed_by body /\
  od_reviewed_at row = b_reviewed_at body.
Proof.
  unfold post_od_request, try_catch, bindJ, bind.
  destruct (bool_decide (b_user_id body = Some (sub user))) eqn:Hid; simpl;
    [|intros [=]].
  apply bool_decide_eq_true_1 in Hid.
  destruct (fault_at 0 w) as [e|] eqn:H0.
  - rewrite (validatePeriods_failed _ _ _ _ _ _ _ H0). intros [=].
  - rewrite (validatePeriods_served _ _ _ _ _ _ H0).
    destruct (verdict _ _ _ _); [|intros [=]].
    unfold await, bind.
    set (w1 := {| db := db w |}).
    destruct (fault_at 0 w1) as [e|] eqn:H1.
    + rewrite (from_failed _ _ _ _ H1). intros [=].
    + rewrite (from_served _ _ _ H1). unfold Supabase.od_insert. rewrite Hid. simpl.
      intros [= <- <-]. simpl. split_and!; reflexivity.
Qed.
End CreateFacts.

Lemma od_apply_id p r : od_id (Supabase.od_apply p r) = od_id r.
Proof. reflexivity. Qed.

Lemma filter_od_update_rows id p (rows : list ODRequest) :
  filter (fun r => od_id r = id) (Supabase.od_update_rows id p rows) =
    Supabase.od_apply p <$> filter (fun r => od_id r = id) rows.
Proof.
  unfold Supabase.od_update_rows.
  induction rows as [|r rows IH]; [reflexivity|].
  rewrite fmap_cons, !filter_cons. case_bool_decide as Hr.
  - rewrite od_apply_id. rewrite !decide_True by assumption.
    rewrite fmap_cons. f_equal. exact IH.
  - rewrite !decide_False by assumption. exact IH.
Qed.

Lemma od_update_rows_elem id p (rows : list ODRequest) r :
  r ∈ filter (fun r => od_id r = id) rows ->
  Supabase.od_apply p r ∈ Supabase.od_update_rows id p rows.
Proof.
  intros [Hin Hid]%list_elem_of_filter. unfold Supabase.od_update_rows.
  apply list_elem_of_fmap. exists r. split; [|assumption].
  rewrite bool_decide_eq_true_2 by assumption. reflexivity.
Qed.

Section ReviewFacts.
Variable user : Claims.
Variable id : nat.
Variable body : ReviewBody.
Variable w : World.

(** A review in somebody else's name is answered 403 before anything
    is asked of the store. *)
Lemma put_od_review_mismatch :
  rb_reviewedBy body <> Some (sub user) ->
  put_od_review user id body w = (json 403 (JError "Reviewer ID mismatch"), w).
Proof.
  intros H. unfold put_od_review, try_catch, bind.
  destruct (rb_reviewedBy body) as [r|]; [|reflexivity].
  destruct (String.eqb_spec r (sub user)) as [->|]; [congruence | reflexivity].
Qed.

(** A review of a row that exists, with the update served: the row is
    overwritten, whatever its status was. *)
Lemma put_od_review_served r0 :
  rb_reviewedBy body = Some (sub user) ->
  fault_at 0 w = None ->
  filter (fun r => od_id r = id) (od_requests (db w)) = [r0] ->
  put_od_review user id body w =
    (json 200 (JOD (Supabase.od_apply (review_patch user body w) r0)),
     {| db := Supabase.with_od_requests
                (Supabase.od_update_rows id (review_patch user body w) (od_requests (db w)))
                (db w);
        clock := clock w;
        faults := tail (faults w);
        trace := trace w ++ [{| call_op := od_update_op; call_error := None |}] |}).
Proof.
  intros Hby H0 Hrow. unfold put_od_review, try_catch, bindJ, bind, await, bind.
  rewrite Hby, String.eqb_refl. simpl.
  rewrite (from_served _ _ _ H0). unfold Supabase.od_update.
  fold (review_patch user body w). rewrite Hrow. reflexivity.
Qed.

(** Whatever the store does, a 200 carries a row stamped with the
    caller as reviewer, which is the row of that id in the table. *)
Lemma put_od_review_200 row w' :
  put_od_review user id body w = (json 200 (JOD row), w') ->
  od_reviewed_by row = Some (sub user) /\
  od_id row = id /\
  row ∈ od_requests (db w').
Proof.
  unfold put_od_review, try_catch, bindJ, bind, await, bind.
  destruct (rb_reviewedBy body) as [by_|]; [|intros [=]].
  destruct (String.eqb_spec by_ (sub user)) as [->|]; simpl; [|intros [=]].
  destruct (fault_at 0 w) as [e|] eqn:H0.
  - rewrite (from_failed _ _ _ _ H0). intros [=].
  - rewrite (from_served _ _ _ H0). unfold Supabase.od_update.
    fold (review_patch user body w).
    destruct (filter _ _) as [|r0 [|? ?]] eqn:Hrow; simpl;
      try (intros Habs; discriminate Habs).
    intros [= <- <-]. simpl. split_and!.
    + reflexivity.
    + assert (Hin : r0 ∈ filter (fun r => od_id r = id) (od_requests (db w)))
        by (rewrite Hrow; apply list_elem_of_here).
      apply list_elem_of_filter in Hin. tauto.
    + apply od_update_rows_elem. rewrite Hrow. apply list_elem_of_here.
Qed.
End ReviewFacts.

(** C3, as the code has it.  A create-OD call whose body names
    another user than the authenticated subject is answered 403 and the
    world is left as it was: no read, no insert.  A review call whose
    [reviewedBy] is not the authenticated administrator is answered 403
    and the world is left as it was: no update.  So the row that a 201
    reports stored has the caller as [user_id], and the row that a 200
    of the review reports stored has the caller as [reviewed_by].  The
    review columns of a row that is created are those of the body, as
    they came: the [reviewed_by] of a stored row is the reviewing
    administrator when the review handler wrote it, and whatever the
    body carried when it was not reviewed since. *)
Theorem ownership_is_enforced
    (Date_parse : string -> JSDate.Num) (LocalTZA : Z)
    (user : Claims) (w : World) (body : ODBody) (id : nat) (review : ReviewBody) :
  (b_user_id body <> Some (sub user) ->
     post_od_request Date_parse LocalTZA user body w =
       (json 403 (JError "User ID mismatch"), w)) /\
  (rb_reviewedBy review <> Some (sub user) ->
     put_od_review user id review w =
       (json 403 (JError "Reviewer ID mismatch"), w)) /\
  (forall row w',
     post_od_request Date_parse LocalTZA user body w = (json 201 (JOD row), w') ->
     od_user_id row = sub user /\ od_requests (db w') = od_requests (db w) ++ [row] /\
     od_reviewed_by row = b_reviewed_by body /\ od_reviewed_at row = b_reviewed_at body) /\
  (forall row w',
     put_od_review user id review w = (json 200 (JOD row), w') ->
     od_reviewed_by row = Some (sub user) /\ od_id row = id /\ row ∈ od_requests (db w')).
Proof.
  split_and!.
  - apply post_od_request_mismatch.
  - apply put_od_review_mismatch.
  - apply post_od_request_201.
  - apply put_od_review_200.
Qed.

Lemma ownership_is_enforced_witness :
  post_od_request Sample.parse_iso_date Sample.IST Sample.outsider Sample.request_2099
    Sample.world = (json 403 (JError "User ID mismatch"), Sample.world) /\
  put_od_review Sample.principal_in 1 Sample.approve_by_a1 Sample.world =
    (json 403 (JError "Reviewer ID mismatch"), Sample.world).
Proof.
  split.
  - apply (ownership_is_enforced Sample.parse_iso_date Sample.IST Sample.outsider Sample.world
             Sample.request_2099 1 Sample.approve_by_a1). discriminate.
  - apply (ownership_is_enforced Sample.parse_iso_date Sample.IST Sample.principal_in
             Sample.world Sample.request_2099 1 Sample.approve_by_a1). discriminate.
Defined.

(** C3 as stated fails.  A student creates a request whose body carries
    [reviewed_by: 'a2'] and [status: 'approved']: the user_id check
    passes, the row is stored as the body has it, and it names the
    administrator a2 as its reviewer though no review was made: the
    calls of the request are the lookup, the fetch of the timings and
    the insert. *)
Lemma forged_reviewer_is_stored :
  exists row w',
    serve Sample.parse_iso_date Sample.IST (POST_od_request Sample.request_forged_review)
      Sample.student Sample.world = (json 201 (JOD row), w') /\
    od_requests (db w') = od_requests (db Sample.world) ++ [row] /\
    od_user_id row = sub Sample.student /\
    od_reviewed_by row = Some "a2" /\
    od_reviewed_by row <> Some (sub Sample.student) /\
    call_op <$> calls (serve Sample.parse_iso_date Sample.IST
                         (POST_od_request Sample.request_forged_review) Sample.student)
                  Sample.world
      = [whitelist_lookup; timings_select; od_insert_op].
Proof.
  eexists _, _. split; [vm_compute; reflexivity|].
  split_and!; first [reflexivity | discriminate | (vm_compute; reflexivity)].
Qed.

(** The route of [POST /api/od/request] for a member of the institution
    who is not an administrator, with the three store calls served. *)
Lemma serve_post_od_request_created
    (Date_parse : string -> JSDate.Num) (LocalTZA : Z)
    (user : Claims) (body : ODBody) (w : World) :
  fault_at 0 w = None -> fault_at 1 w = None -> fault_at 2 w = None ->
  admin_whitelist (db w) !! email user = None ->
  endsWith (email user) "@kpriet.ac.in" = true ->
  b_user_id body = Some (sub user) ->
  verdict Date_parse LocalTZA (b_date body) (clock w) = Valid ->
  exists w',
    serve Date_parse LocalTZA (POST_od_request body) user w =
      (json 201 (JOD (created_row user body w)), w') /\
    db w' = Supabase.with_od_requests (od_requests (db w) ++ [created_row user body w]) (db w).
Proof.
  intros H0 H1 H2 Hl Hd Hid Hv. unfold serve. simpl. unfold bind.
  pose proof (authorize_user_served user w H0) as Ha.
  pose proof (authorize_world user w "user") as Hw.
  destruct (authorize "user" user w) as [step w1]. simpl in Ha, Hw. subst step w1.
  rewrite Hl, Hd.
  rewrite post_od_request_created; try assumption.
  - eexists. split; reflexivity.
  - rewrite fault_at_after_call. assumption.
  - rewrite fault_at_after_call. assumption.
Qed.

(** C5, as the code has it.  For a create-OD request that passes
    authorization, the user_id check and the date validation, and whose
    store calls are served, exactly one row is appended to the table and
    the answer is 201 with that row.  The handler neither sets nor strips
    [status]: the row is pending by the default of the store when the
    body carries no status, and has the status of the body when it
    carries one. *)
Theorem create_inserts_one_row
    (Date_parse : string -> JSDate.Num) (LocalTZA : Z)
    (user : Claims) (body : ODBody) (w : World) :
  fault_at 0 w = None -> fault_at 1 w = None -> fault_at 2 w = None ->
  admin_whitelist (db w) !! email user = None ->
  endsWith (email user) "@kpriet.ac.in" = true ->
  b_user_id body = Some (sub user) ->
  verdict Date_parse LocalTZA (b_date body) (clock w) = Valid ->
  exists row w',
    serve Date_parse LocalTZA (POST_od_request body) user w = (json 201 (JOD row), w') /\
    od_requests (db w') = od_requests (db w) ++ [row] /\
    admin_whitelist (db w') = admin_whitelist (db w) /\
    users (db w') = users (db w) /\
    year_period_timings (db w') = year_period_timings (db w) /\
    od_user_id row = sub user /\
    od_status row = default "pending" (b_status body) /\
    (b_status body = None -> od_status row = "pending").
Proof.
  intros H0 H1 H2 Hl Hd Hid Hv.
  destruct (serve_post_od_request_created Date_parse LocalTZA user body w)
    as (w' & Hs & Hdb); try assumption.
  exists (created_row user body w), w'. rewrite Hs, Hdb. simpl.
  split_and!; try reflexivity. intros ->. reflexivity.
Qed.

Lemma create_inserts_one_row_witness :
  exists row w',
    serve Sample.parse_iso_date Sample.IST (POST_od_request Sample.request_2099)
      Sample.student Sample.world = (json 201 (JOD row), w') /\
    od_requests (db w') = od_requests (db Sample.world) ++ [row] /\
    od_status row = "pending".
Proof.
  destruct (create_inserts_one_row Sample.parse_iso_date Sample.IST Sample.student
              Sample.request_2099 Sample.world)
    as (row & w' & Hs & Hrows & _ & _ & _ & _ & Hst & _);
    try reflexivity.
  exists row, w'. split_and!; assumption.
Defined.

(** C5 as stated fails: a request that passes authorization, the user_id
    check and the date validation, and carries [status: 'approved'] in
    its body, is stored as approved. *)
Lemma create_status_not_forced :
  (authorize "user" Sample.student Sample.world).1 = Next Sample.student /\
  b_user_id Sample.request_self_approved = Some (sub Sample.student) /\
  verdict Sample.parse_iso_date Sample.IST (b_date Sample.request_self_approved)
    (clock Sample.world) = Valid /\
  exists row w',
    serve Sample.parse_iso_date Sample.IST (POST_od_request Sample.request_self_approved)
      Sample.student Sample.world = (json 201 (JOD row), w') /\
    od_requests (db w') = od_requests (db Sample.world) ++ [row] /\
    od_status row = "approved" /\
    od_status row <> "pending".
Proof.
  split_and!; try reflexivity.
  eexists _, _. split_and!; [vm_compute; reflexivity | reflexivity | reflexivity | discriminate].
Qed.




(* ===================================================================== *)
(** ** Facts: the user profile                                            *)
(* ===================================================================== *)

Section ProfileFacts.
Variable user : Claims.
Variable w : World.

(** The ownership check of the read path: it passes for the owner
    without a call, and otherwise exactly when the lookup gives a row. *)
Lemma owner_or_admin_run owner :
  owner_or_admin user owner w =
    if bool_decide (sub user = owner) then (Normal tt, w)
    else
      (match lookup_reply (email user) w with
       | Data _ => Normal tt
       | Error _ => Return (json 403 (JError "Unauthorized"))
       end,
       after_call whitelist_lookup (lookup_error (email user) w) w).
Proof.
  unfold owner_or_admin. case_bool_decide; simpl; [reflexivity|].
  unfold bindJ, await, bind. rewrite whitelist_lookup_run.
  destruct (lookup_reply (email user) w); reflexivity.
Qed.

Lemma lookup_reply_data mail a :
  lookup_reply mail w = Data a -> is_Some (admin_whitelist (db w) !! mail).
Proof.
  unfold lookup_reply. destruct (fault_at 0 w); [discriminate|].
  destruct (admin_whitelist (db w) !! mail); [eauto | discriminate].
Qed.

Lemma lookup_reply_unlisted mail :
  admin_whitelist (db w) !! mail = None -> exists e, lookup_reply mail w = Error e.
Proof.
  unfold lookup_reply. intros ->. destruct (fault_at 0 w); eauto.
Qed.

Lemma get_user_forbidden id :
  sub user <> id ->
  admin_whitelist (db w) !! email user = None ->
  (get_user user id w).1 = json 403 (JError "Unauthorized").
Proof.
  intros Hne Hl. unfold get_user, try_catch, bindJ, bind.
  rewrite owner_or_admin_run, bool_decide_eq_false_2 by assumption.
  destruct (lookup_reply_unlisted _ Hl) as [e ->]. reflexivity.
Qed.

Lemma get_user_row id resp row :
  (get_user user id w).1 = resp ->
  payload resp = JUser row ->
  (sub user = id \/ is_Some (admin_whitelist (db w) !! email user)) /\
  status resp = 200 /\
  users (db w) !! id = Some row.
Proof.
  unfold get_user, try_catch, bindJ, bind.
  rewrite owner_or_admin_run.
  assert (Hacc : (sub user = id \/ is_Some (admin_whitelist (db w) !! email user)) \/
                 exists e, bool_decide (sub user = id) = false /\
                           lookup_reply (email user) w = Error e).
  { case_bool_decide; [tauto|].
    destruct (lookup_reply (email user) w) eqn:Hl; [|eauto].
    apply lookup_reply_data in Hl. tauto. }
  destruct Hacc as [Hacc|(e & -> & ->)]; [|simpl; intros <-; discriminate].
  case_bool_decide; [|destruct (lookup_reply (email user) w); [|simpl; intros <-; discriminate]];
    unfold await, bind; run_call; simpl;
    try (destruct (String.eqb (code e) "PGRST116"); simpl; intros <-; discriminate);
    unfold Supabase.user_by_id; simpl;
    (destruct (users (db w) !! id); simpl; intros <-; simpl;
     [intros [= ->]; auto | discriminate]).
Qed.

(** A body for somebody else is answered 403 before anything is asked
    of the store. *)
Lemma post_user_mismatch body :
  ub_id body <> Some (sub user) ->
  post_user user body w = (json 403 (JError "Cannot update other users"), w).
Proof.
  intros H. unfold post_user, try_catch, bind.
  rewrite bool_decide_eq_false_2 by congruence. reflexivity.
Qed.
End ProfileFacts.

(** C8.  [GET /api/user/:id] returns the row only when the authenticated
    subject is the target id or the email of the caller is in the admin
    whitelist, and answers 403 otherwise.  [POST /api/user] goes on to
    the upsert only when the id of the body is the authenticated subject,
    whether or not the caller is an administrator, and otherwise answers
    403 and leaves the world as it was. *)
Theorem profile_access (user : Claims) (w : World) (id : string) (body : UserBody) :
  (forall row, payload (get_user user id w).1 = JUser row ->
     (sub user = id \/ is_Some (admin_whitelist (db w) !! email user)) /\
     status (get_user user id w).1 = 200 /\
     users (db w) !! id = Some row) /\
  (sub user <> id -> admin_whitelist (db w) !! email user = None ->
     (get_user user id w).1 = json 403 (JError "Unauthorized")) /\
  (ub_id body <> Some (sub user) ->
     post_user user body w = (json 403 (JError "Cannot update other users"), w)) /\
  ((post_user user body w).2 <> w -> ub_id body = Some (sub user)).
Proof.
  split_and!.
  - intros row Hp. eapply get_user_row; [reflexivity | exact Hp].
  - apply get_user_forbidden.
  - apply post_user_mismatch.
  - intros Hw. destruct (decide (ub_id body = Some (sub user))) as [|Hne]; [assumption|].
    exfalso. apply Hw. rewrite post_user_mismatch by assumption. reflexivity.
Qed.

Lemma profile_access_witness :
  (get_user Sample.student "u2" Sample.world).1 = json 403 (JError "Unauthorized") /\
  post_user Sample.hod_cse
    {| ub_id := Some "u1"; ub_name := "Asha"; ub_email := "21cs001@kpriet.ac.in";
       ub_department := "ECE"; ub_year := 2%Z |} Sample.world
    = (json 403 (JError "Cannot update other users"), Sample.world).
Proof.
  split.
  - apply (profile_access Sample.student Sample.world "u2"
             {| ub_id := None; ub_name := "x"; ub_email := "x"; ub_department := "x";
                ub_year := 0%Z |}); [discriminate | reflexivity].
  - apply (profile_access Sample.hod_cse Sample.world "u1"). discriminate.
Defined.

(* ===================================================================== *)
(** ** Facts: error translation                                           *)
(* ===================================================================== *)

Lemma calls_suffix {A} (m : M A) (w : World) cs :
  trace (m w).2 = trace w ++ cs -> calls m w = cs.
Proof.
  intros H. unfold calls. rewrite H. apply drop_app_length.
Qed.


Section ErrorTranslation.
Variable Date_parse : string -> JSDate.Num.
Variable LocalTZA : Z.

End ErrorTranslation.




(** The review of an id that no row has is a single-row update by id
    whose row-not-found signal is answered 500: the review handler has
    no mapping to 404. *)
Lemma review_of_missing_row_is_500 :
  exists w',
    serve Sample.parse_iso_date Sample.IST (PUT_od_review 99 Sample.approve_by_a1)
      Sample.hod_cse Sample.world
      = (json 500 (JError "JSON object requested, multiple (or no) rows returned"), w') /\
    calls (serve Sample.parse_iso_date Sample.IST (PUT_od_review 99 Sample.approve_by_a1)
             Sample.hod_cse) Sample.world
      = [ {| call_op := whitelist_lookup; call_error := None |};
          {| call_op := od_update_op; call_error := Some Supabase.PGRST116 |} ] /\
    status (serve Sample.parse_iso_date Sample.IST (PUT_od_review 99 Sample.approve_by_a1)
              Sample.hod_cse Sample.world).1 <> 404.
Proof.
  eexists. split_and!; [vm_compute; reflexivity | vm_compute; reflexivity |].
  vm_compute. discriminate.
Qed.


(** A failed whitelist lookup is not answered 500: the department head
    is taken for no administrator. *)
Lemma failed_lookup_is_403 :
  (serve Sample.parse_iso_date Sample.IST GET_od_pending Sample.hod_cse Sample.world_down).1
    = json 403 (JError "Admin access required").
Proof. vm_compute. reflexivity. Qed.

(* ===================================================================== *)
(** ** Facts: reporting                                                   *)
(* ===================================================================== *)

Section ReportFacts.
Variable user : Claims.
Variable w : World.

(** The summary counts the rows in the scope of the administrator. *)
Lemma get_reports_summary_served :
  fault_at 0 w = None ->
  (get_reports_summary user w).1 =
    json 200 (JStats (summarize
      (filter (fun r => Supabase.in_scope (department user) r = true) (od_requests (db w))))).
Proof.
  intros H. unfold get_reports_summary, try_catch, bindJ, await, bind.
  rewrite (from_served _ _ _ H). reflexivity.
Qed.

Lemma in_scope_department d r :
  d <> EmptyString ->
  Supabase.in_scope (Some d) r = true <-> od_department r = d.
Proof.
  intros Hd. unfold Supabase.in_scope, truthy.
  destruct (String.eqb_spec d EmptyString) as [|_]; [contradiction|]. simpl.
  rewrite bool_decide_eq_true. split; congruence.
Qed.

Lemma in_scope_everything r : Supabase.in_scope None r = true.
Proof. reflexivity. Qed.

(** For an administrator of department [d] the summary is the one of
    the rows of [d]; for an administrator without department it is the
    one of all rows. *)
Lemma summary_of_department d :
  department user = Some d -> d <> EmptyString ->
  fault_at 0 w = None ->
  (get_reports_summary user w).1 =
    json 200 (JStats (summarize (filter (fun r => od_department r = d) (od_requests (db w))))).
Proof.
  intros Hd Hne H. rewrite (get_reports_summary_served H), Hd.
  do 3 f_equal. apply list_filter_iff. intros r. apply in_scope_department. exact Hne.
Qed.

Lemma summary_of_everything :
  department user = None ->
  fault_at 0 w = None ->
  (get_reports_summary user w).1 = json 200 (JStats (summarize (od_requests (db w)))).
Proof.
  intros Hd H. rewrite (get_reports_summary_served H), Hd.
  do 3 f_equal. induction (od_requests (db w)) as [|r rows IH]; [reflexivity|].
  rewrite filter_cons_True by reflexivity. f_equal. exact IH.
Qed.

(** The export reads the whole table, whatever the department of the
    administrator is. *)
Lemma get_reports_export_served :
  fault_at 0 w = None ->
  (get_reports_export user w).1 =
    {| status := 200;
       payload := Csv (csv_headers +:+
                       join newline (csv_row <$> merge_sort Supabase.newest_first
                                                   (od_requests (db w)))) |}.
Proof.
  intros H. unfold get_reports_export, try_catch, bindJ, await, bind.
  rewrite (from_served _ _ _ H). reflexivity.
Qed.
End ReportFacts.

(** C7 at its failing input.  The department head of CSE is authorized
    with the department CSE attached; the summary counts the one CSE row
    only, but the export carries the ECE row as well. *)
Theorem export_is_not_scoped :
  (authorize "admin" Sample.hod_cse Sample.world).1 = Next Sample.hod_cse_in /\
  (exists stats,
     payload (serve Sample.parse_iso_date Sample.IST GET_reports_summary
                Sample.hod_cse Sample.world).1 = JStats stats /\
     total stats = 1 /\ pending stats = 1 /\ approved stats = 0 /\
     deptDistribution stats !! "ECE" = None /\
     deptDistribution stats !! "CSE" = Some 1) /\
  (serve Sample.parse_iso_date Sample.IST GET_reports_export Sample.hod_cse Sample.world).1 =
    {| status := 200;
       payload := Csv (csv_headers +:+ "21EC007,ECE,3,Sports,2026-10-21,approved" +:+ newline
                       +:+ "21CS001,CSE,2,Symposium,2026-10-20,pending") |}.
Proof.
  split_and!.
  - reflexivity.
  - eexists. split; [vm_compute; reflexivity|]. split_and!; reflexivity.
  - vm_compute. reflexivity.
Qed.

(* ===================================================================== *)
(** ** Further facts: the token verifier                                  *)
(* ===================================================================== *)

Lemma split_free c s : free_of c s = true -> split c s = [s].
Proof.
  induction s as [|a s IH]; simpl; [reflexivity|].
  destruct (Ascii.eqb a c); simpl; [discriminate|].
  intros H. rewrite (IH H). reflexivity.
Qed.

Lemma split_first c s rest :
  free_of c s = true -> split c (s +:+ String c rest) = s :: split c rest.
Proof.
  induction s as [|a s IH]; simpl.
  - rewrite Ascii.eqb_refl. reflexivity.
  - destruct (Ascii.eqb a c); simpl; [discriminate|].
    intros H. rewrite (IH H). reflexivity.
Qed.

Lemma prefix_append p s : String.prefix p (p +:+ s) = true.
Proof.
  induction p as [|a p IH]; simpl.
  - destruct s; reflexivity.
  - destruct (Ascii.ascii_dec a a); [exact IH | congruence].
Qed.

Lemma append_empty s : s +:+ EmptyString = s.
Proof.
  induction s as [|a s IH]; [reflexivity|].
  change (String a (s +:+ EmptyString) = String a s). rewrite IH. reflexivity.
Qed.

(** X1.  Of a header [Bearer <token>] the verifier is given the token:
    the piece between the first space and the second, whatever follows
    the second space; the claims it decodes become [req.user], and a
    token it refuses is answered 401 'Invalid token'. *)
Theorem authenticate_bearer_token
    (jwt_verify : string -> option Claims) (token rest : string) :
  free_of space token = true ->
  rest = EmptyString \/ (exists junk, rest = String space junk) ->
  authenticate jwt_verify (Some ("Bearer " +:+ token +:+ rest)) =
    match jwt_verify token with
    | Some decoded => Next decoded
    | None => Respond (json 401 (JError "Invalid token"))
    end.
Proof.
  intros Hfree Hrest. unfold authenticate.
  rewrite prefix_append. cbn [negb].
  change ("Bearer " +:+ token +:+ rest) with ("Bearer" +:+ String space (token +:+ rest)).
  rewrite split_first by reflexivity.
  destruct Hrest as [->|[junk ->]].
  - rewrite append_empty, split_free by assumption. reflexivity.
  - rewrite split_first by assumption. reflexivity.
Qed.

Lemma authenticate_bearer_token_witness :
  authenticate Sample.verify (Some "Bearer good and more") = Next Sample.student /\
  authenticate Sample.verify (Some "Bearer bad") = Respond (json 401 (JError "Invalid token")).
Proof.
  split.
  - apply (authenticate_bearer_token Sample.verify "good" " and more");
      [reflexivity | right; eexists; reflexivity].
  - apply (authenticate_bearer_token Sample.verify "bad" EmptyString);
      [reflexivity | left; reflexivity].
Defined.

(** X2.  A request without a credential that [authenticate] accepts is
    answered 401 on every route but [GET /api/health], and nothing is
    asked of the store: the world is as it was. *)
Theorem unauthenticated_is_401
    (jwt_verify : string -> option Claims) (Date_parse : string -> JSDate.Num) (LocalTZA : Z)
    (authHeader : option string) (r : Route) (w : World) :
  (forall user, authenticate jwt_verify authHeader <> Next user) ->
  r <> GET_health ->
  exists msg,
    app jwt_verify Date_parse LocalTZA authHeader r w = (json 401 (JError msg), w).
Proof.
  intros Hno Hr. unfold app.
  assert (Hresp : exists msg, authenticate jwt_verify authHeader = Respond (json 401 (JError msg))).
  { unfold authenticate in *. destruct authHeader as [h|]; [|eauto].
    destruct (String.prefix "Bearer " h); simpl in *; [|eauto].
    destruct (split space h !! 1) as [t|]; [|eauto].
    destruct (jwt_verify t) as [u|]; [|eauto]. exfalso. exact (Hno u eq_refl). }
  destruct Hresp as [msg ->]. exists msg.
  destruct r; try reflexivity. contradiction.
Qed.

Lemma unauthenticated_is_401_witness :
  exists msg,
    app Sample.verify Sample.parse_iso_date Sample.IST (Some "Basic dXNlcjpwdw==")
      (PUT_od_review 1 Sample.approve_by_a1) Sample.world
    = (json 401 (JError msg), Sample.world).
Proof.
  apply unauthenticated_is_401; [intros user; discriminate | discriminate].
Defined.

(* ===================================================================== *)
(** ** Further facts: the domain check                                    *)
(* ===================================================================== *)

Lemma substring_all s : String.substring 0 (String.length s) s = s.
Proof. induction s as [|a s IH]; simpl; [reflexivity | rewrite IH; reflexivity]. Qed.

Lemma substring_skip p s m :
  String.substring (String.length p) m (p +:+ s) = String.substring 0 m s.
Proof. induction p as [|a p IH]; simpl; [reflexivity | exact IH]. Qed.

Lemma length_append p s : String.length (p +:+ s) = String.length p + String.length s.
Proof. induction p as [|a p IH]; simpl; [reflexivity | rewrite IH; reflexivity]. Qed.

Lemma substring_split s k :
  k <= String.length s ->
  s = String.substring 0 k s +:+ String.substring k (String.length s - k) s.
Proof.
  revert k. induction s as [|a s IH]; intros k Hk; simpl in *.
  - destruct k; [reflexivity | lia].
  - destruct k as [|k]; simpl.
    + rewrite substring_all. reflexivity.
    + change (String a s =
              String a (String.substring 0 k s +:+
                        String.substring k (String.length s - k) s)).
      f_equal. apply IH. lia.
Qed.

(** [endsWith] holds of the strings that are something followed by the
    search string, and of no other. *)
Lemma endsWith_spec s suffix :
  endsWith s suffix = true <-> exists p, s = p +:+ suffix.
Proof.
  unfold endsWith. split.
  - destruct (Nat.ltb_spec (String.length s) (String.length suffix)) as [|Hle];
      [discriminate|].
    intros H%String.eqb_eq.
    set (k := String.length s - String.length suffix) in *.
    exists (String.substring 0 k s).
    replace (String.length suffix) with (String.length s - k) in H by lia.
    rewrite <- H. apply substring_split. lia.
  - intros [p ->]. rewrite length_append.
    destruct (Nat.ltb_spec (String.length p + String.length suffix) (String.length suffix));
      [lia|].
    replace (String.length p + String.length suffix - String.length suffix)
      with (String.length p) by lia.
    rewrite substring_skip, substring_all. apply String.eqb_refl.
Qed.

(** X3.  With the whitelist lookup served, [authorize('user')] lets
    through exactly the identities that are not in the whitelist and
    whose email is some string, possibly empty, followed by
    [@kpriet.ac.in]; the comparison is exact, character by character. *)
Theorem user_gate_domain (user : Claims) (w : World) :
  fault_at 0 w = None ->
  (exists user', (authorize "user" user w).1 = Next user') <->
  admin_whitelist (db w) !! email user = None /\
  exists local, email user = local +:+ "@kpriet.ac.in".
Proof.
  intros H. rewrite <- endsWith_spec.
  pose proof (authorize_user_served user w H) as Hu.
  destruct (admin_whitelist (db w) !! email user) as [d|].
  - rewrite Hu. split; [intros [u' [=]] | intros [[=] _]].
  - destruct (endsWith (email user) "@kpriet.ac.in"); rewrite Hu.
    + split; [tauto | eauto].
    + split; [intros [u' [=]] | intros [_ [=]]].
Qed.

Lemma user_gate_domain_witness :
  (exists user', (authorize "user" Sample.student Sample.world).1 = Next user') /\
  ~ (exists user',
       (authorize "user"
          {| sub := "u7"; email := "x@KPRIET.AC.IN"; department := None |}
          Sample.world).1 = Next user').
Proof.
  split.
  - apply (user_gate_domain Sample.student Sample.world); [reflexivity|].
    split; [reflexivity | exists "21cs001"; reflexivity].
  - intros Hn.
    apply (user_gate_domain {| sub := "u7"; email := "x@KPRIET.AC.IN"; department := None |}
             Sample.world) in Hn; [|reflexivity].
    destruct Hn as [_ Hn%endsWith_spec]. discriminate Hn.
Defined.

(* ===================================================================== *)
(** ** Further facts: the summary                                         *)
(* ===================================================================== *)

(** X4.  The three counts of the summary and the number of rows with
    any other status add up to the total: a row whose status is none of
    approved, pending and rejected is in the total and in no count. *)
Theorem summary_accounts_for_every_row (data : list ODRequest) :
  approved (summarize data) + pending (summarize data) + rejected (summarize data)
    + length (filter (fun r => ~ known_status r) data)
  = total (summarize data).
Proof.
  unfold summarize, count_status. simpl.
  induction data as [|r data IH]; [reflexivity|].
  rewrite !filter_cons. simpl length. rewrite <- IH. clear IH.
  unfold known_status.
  destruct (decide (od_status r = "approved")) as [E|E];
    destruct (decide (od_status r = "pending")) as [E1|E1];
    destruct (decide (od_status r = "rejected")) as [E2|E2];
    try (rewrite E in E1; discriminate E1);
    try (rewrite E in E2; discriminate E2);
    try (rewrite E1 in E2; discriminate E2);
    (destruct (decide (~ (od_status r = "approved" \/ od_status r = "pending"
                          \/ od_status r = "rejected"))) as [E3|E3];
     [try (exfalso; apply E3; tauto) | try (exfalso; apply E3; tauto)]);
    simpl; lia.
Qed.

Lemma bump_lookup key dist d :
  bump key dist !! d =
    if decide (key = d) then Some (default 0 (dist !! d) + 1) else dist !! d.
Proof.
  unfold bump. rewrite lookup_insert. destruct (decide (key = d)) as [->|]; reflexivity.
Qed.

Lemma distribution_lookup (key : ODRequest -> string) (data : list ODRequest)
    (dist : gmap string nat) (d : string) :
  foldl (fun dist r => bump (key r) dist) dist data !! d =
    match length (filter (fun r => key r = d) data) with
    | 0 => dist !! d
    | S n => Some (default 0 (dist !! d) + S n)
    end.
Proof.
  revert dist. induction data as [|r data IH]; intros dist; [reflexivity|].
  simpl foldl. rewrite IH, filter_cons, bump_lookup.
  destruct (decide (key r = d)) as [E|E]; simpl.
  - destruct (length (filter _ data)); simpl; f_equal; lia.
  - reflexivity.
Qed.

(** X5.  The two distributions of the summary count right: the entry of
    a department (of a category) is the number of rows that have it,
    and a department (a category) that no row has gets no entry.  The
    keys are taken not to be names that an object inherits, on which
    [dist[key] || 0] would not read a count. *)
Theorem summary_distributions_count (data : list ODRequest) (d : string) :
  Forall (fun r => prototype_property (od_department r) = false /\
                   prototype_property (od_category r) = false) data ->
  deptDistribution (summarize data) !! d =
    match length (filter (fun r => od_department r = d) data) with
    | 0 => None
    | S n => Some (S n)
    end /\
  categoryUsage (summarize data) !! d =
    match length (filter (fun r => od_category r = d) data) with
    | 0 => None
    | S n => Some (S n)
    end.
Proof.
  intros _. unfold summarize. simpl.
  rewrite (distribution_lookup od_department), (distribution_lookup od_category).
  rewrite lookup_empty. split; reflexivity.
Qed.

Lemma summary_distributions_count_witness :
  deptDistribution (summarize [Sample.od_cse; Sample.od_ece; Sample.od_cse]) !! "CSE" = Some 2 /\
  categoryUsage (summarize [Sample.od_cse; Sample.od_ece; Sample.od_cse]) !! "Workshop" = None.
Proof.
  split.
  - apply (summary_distributions_count [Sample.od_cse; Sample.od_ece; Sample.od_cse] "CSE").
    repeat constructor.
  - apply (summary_distributions_count [Sample.od_cse; Sample.od_ece; Sample.od_cse]
             "Workshop").
    repeat constructor.
Defined.

(* ===================================================================== *)
(** ** Further facts: the lists                                           *)
(* ===================================================================== *)

#[global] Instance oldest_first_total : Total Supabase.oldest_first.
Proof. intros a b. unfold Supabase.oldest_first. lia. Qed.
#[global] Instance newest_first_total : Total Supabase.newest_first.
Proof. intros a b. unfold Supabase.newest_first. lia. Qed.
#[global] Instance oldest_first_trans : Transitive Supabase.oldest_first.
Proof. intros a b c. unfold Supabase.oldest_first. lia. Qed.
#[global] Instance newest_first_trans : Transitive Supabase.newest_first.
Proof. intros a b c. unfold Supabase.newest_first. lia. Qed.

Lemma get_od_pending_served (user : Claims) (w : World) :
  fault_at 0 w = None ->
  exists rows,
    get_od_pending user w = (json 200 (JPending rows), after_call od_select None w) /\
    (forall r, r ∈ rows.*1 <->
       r ∈ od_requests (db w) /\ od_status r = "pending" /\
       Supabase.in_scope (department user) r = true) /\
    StronglySorted Supabase.oldest_first rows.*1 /\
    rows.*1 ≡ₚ filter (fun r => od_status r = "pending" /\
                                 Supabase.in_scope (department user) r = true)
                 (od_requests (db w)) /\
    (forall r u, (r, u) ∈ rows ->
       u = (fun x => (u_name x, u_email x)) <$> users (db w) !! od_user_id r).
Proof.
  intros H. unfold get_od_pending, try_catch, bindJ, await, bind.
  rewrite (from_served _ _ _ H). simpl.
  eexists. split; [reflexivity|].
  set (sel := filter _ (od_requests (db w))).
  assert (Hfst : (((fun r => (r, (fun x => (u_name x, u_email x)) <$>
                                  users (db w) !! od_user_id r)) <$>
                   merge_sort Supabase.oldest_first sel).*1) =
                 merge_sort Supabase.oldest_first sel).
  { rewrite <- list_fmap_compose. rewrite <- (list_fmap_id (merge_sort _ sel)) at 2.
    apply list_fmap_ext. intros i x _. reflexivity. }
  rewrite Hfst. split_and!.
  - intros r. rewrite merge_sort_Permutation. unfold sel.
    rewrite list_elem_of_filter. tauto.
  - apply StronglySorted_merge_sort; apply _.
  - apply merge_sort_Permutation.
  - intros r u (r' & [= -> ->] & _)%list_elem_of_fmap. reflexivity.
Qed.

(** X6.  With the query served, the pending list holds exactly the rows
    of the table that are pending and in the scope of the
    administrator, each once, the oldest submission first, and each
    with the name and the email of its user when the users table has
    that user. *)
Theorem pending_list_exact (user : Claims) (w : World) :
  fault_at 0 w = None ->
  exists rows,
    (get_od_pending user w).1 = json 200 (JPending rows) /\
    (forall r, r ∈ rows.*1 <->
       r ∈ od_requests (db w) /\ od_status r = "pending" /\
       Supabase.in_scope (department user) r = true) /\
    rows.*1 ≡ₚ filter (fun r => od_status r = "pending" /\
                                 Supabase.in_scope (department user) r = true)
                 (od_requests (db w)) /\
    StronglySorted Supabase.oldest_first rows.*1 /\
    (forall r u, (r, u) ∈ rows ->
       u = (fun x => (u_name x, u_email x)) <$> users (db w) !! od_user_id r).
Proof.
  intros H.
  destruct (get_od_pending_served user w H) as (rows & Hp & Hin & Hs & Hperm & Hu).
  exists rows. rewrite Hp. split_and!; try assumption. reflexivity.
Qed.

Lemma pending_list_exact_witness :
  exists rows,
    (get_od_pending Sample.hod_cse_in Sample.world).1 = json 200 (JPending rows) /\
    Sample.od_cse ∈ rows.*1 /\ Sample.od_ece ∉ rows.*1.
Proof.
  destruct (pending_list_exact Sample.hod_cse_in Sample.world eq_refl)
    as (rows & Hp & Hin & _).
  exists rows. split; [exact Hp|]. split.
  - apply Hin. split_and!; [|reflexivity|reflexivity].
    apply list_elem_of_here.
  - intros [_ [Hst _]]%Hin. discriminate Hst.
Defined.

Lemma get_od_history_rows (user : Claims) (userId : string) (w : World) rows :
  payload (get_od_history user userId w).1 = JODs rows ->
  (sub user = userId \/ is_Some (admin_whitelist (db w) !! email user)) /\
  status (get_od_history user userId w).1 = 200 /\
  rows ≡ₚ filter (fun r => od_user_id r = userId) (od_requests (db w)) /\
  StronglySorted Supabase.newest_first rows.
Proof.
  unfold get_od_history, try_catch, bindJ, bind.
  rewrite owner_or_admin_run.
  assert (Hacc : (sub user = userId \/ is_Some (admin_whitelist (db w) !! email user)) \/
                 exists e, bool_decide (sub user = userId) = false /\
                           lookup_reply (email user) w = Error e).
  { case_bool_decide; [tauto|].
    destruct (lookup_reply (email user) w) eqn:Hl; [|eauto].
    apply lookup_reply_data in Hl. tauto. }
  destruct Hacc as [Hacc|(e & -> & ->)]; [|simpl; discriminate].
  case_bool_decide; [|destruct (lookup_reply (email user) w); [|simpl; discriminate]];
    unfold await, bind; run_call; simpl; try discriminate;
    (intros [= <-]; split_and!;
     [assumption | reflexivity | apply merge_sort_Permutation
     | apply StronglySorted_merge_sort; apply _]).
Qed.

Lemma get_od_history_forbidden (user : Claims) (userId : string) (w : World) :
  sub user <> userId ->
  admin_whitelist (db w) !! email user = None ->
  (get_od_history user userId w).1 = json 403 (JError "Unauthorized").
Proof.
  intros Hne Hl. unfold get_od_history, try_catch, bindJ, bind.
  rewrite owner_or_admin_run, bool_decide_eq_false_2 by assumption.
  destruct (lookup_reply_unlisted w _ Hl) as [e ->]. reflexivity.
Qed.

Lemma get_od_history_own (user : Claims) (w : World) :
  fault_at 0 w = None ->
  exists rows,
    get_od_history user (sub user) w = (json 200 (JODs rows), after_call od_select None w).
Proof.
  intros H. unfold get_od_history, try_catch, bindJ, bind.
  rewrite owner_or_admin_run, bool_decide_eq_true_2 by reflexivity.
  unfold await, bind. rewrite (from_served _ _ _ H). simpl. eexists. reflexivity.
Qed.

(** X7.  [GET /api/od/history/:userId] gives the history only to the
    user it belongs to and to a caller whose email is in the
    whitelist, and answers 403 to anybody else; the history it gives is
    the rows of that user and no other, each once, the newest
    submission first. *)
Theorem history_access_and_content (user : Claims) (userId : string) (w : World) :
  (forall rows, payload (get_od_history user userId w).1 = JODs rows ->
     (sub user = userId \/ is_Some (admin_whitelist (db w) !! email user)) /\
     status (get_od_history user userId w).1 = 200 /\
     rows ≡ₚ filter (fun r => od_user_id r = userId) (od_requests (db w)) /\
     StronglySorted Supabase.newest_first rows) /\
  (sub user <> userId -> admin_whitelist (db w) !! email user = None ->
     (get_od_history user userId w).1 = json 403 (JError "Unauthorized")) /\
  (sub user = userId -> fault_at 0 w = None ->
     exists rows, (get_od_history user userId w).1 = json 200 (JODs rows)).
Proof.
  split_and!.
  - apply get_od_history_rows.
  - apply get_od_history_forbidden.
  - intros <- H. destruct (get_od_history_own user w H) as [rows ->]. eauto.
Qed.

Lemma history_access_and_content_witness :
  (get_od_history Sample.student "u2" Sample.world).1 = json 403 (JError "Unauthorized") /\
  exists rows, (get_od_history Sample.student "u1" Sample.world).1 = json 200 (JODs rows).
Proof.
  split.
  - apply (history_access_and_content Sample.student "u2" Sample.world);
      [discriminate | reflexivity].
  - apply (history_access_and_content Sample.student "u1" Sample.world); reflexivity.
Defined.

(** X8.  With the query served, the export has one line for every row
    of the table, of whatever department, the newest submission first,
    and it is the same export for every caller. *)
Theorem export_covers_table (user : Claims) (w : World) :
  fault_at 0 w = None ->
  exists rows,
    (get_reports_export user w).1 =
      {| status := 200;
         payload := Csv (csv_headers +:+ join newline (csv_row <$> rows)) |} /\
    rows ≡ₚ od_requests (db w) /\
    StronglySorted Supabase.newest_first rows /\
    forall other, get_reports_export other w = get_reports_export user w.
Proof.
  intros H. rewrite (get_reports_export_served user w H).
  eexists. split_and!; [reflexivity | apply merge_sort_Permutation | | reflexivity].
  apply StronglySorted_merge_sort; apply _.
Qed.

Lemma export_covers_table_witness :
  exists rows,
    (get_reports_export Sample.hod_cse_in Sample.world).1 =
      {| status := 200;
         payload := Csv (csv_headers +:+ join newline (csv_row <$> rows)) |} /\
    rows ≡ₚ [Sample.od_cse; Sample.od_ece].
Proof.
  destruct (export_covers_table Sample.hod_cse_in Sample.world eq_refl)
    as (rows & Hr & Hperm & _).
  exists rows. split; assumption.
Defined.

(* ===================================================================== *)
(** ** Further facts: what a request leaves alone                         *)
(* ===================================================================== *)

Ltac finish_unchanged :=
  simpl;
  let Hyp := fresh "Hyp" in
  intros Hyp;
  first [ reflexivity
        | destruct Hyp as [Hyp|Hyp]; [discriminate Hyp | simpl in Hyp; lia] ].

Section Unchanged.
Variable Date_parse : string -> JSDate.Num.
Variable LocalTZA : Z.

Lemma handler_store_unchanged (r : Route) (user : Claims) (w : World) :
  reads_only r = true \/ 400 <= status (handler Date_parse LocalTZA r user w).1 ->
  db (handler Date_parse LocalTZA r user w).2 = db w.
Proof.
  destruct r; simpl;
    unfold get_health, get_timings, get_user, post_user, post_od_request, get_od_history,
      get_od_pending, put_od_review, get_reports_summary, get_reports_export,
      get_admin_whitelist, post_admin_whitelist, delete_admin_whitelist, post_admin_timings,
      owner_or_admin, validatePeriods, try_catch, bindJ, await, bind, ret.
  - finish_unchanged.
  - run_call; finish_unchanged.
  - case_bool_decide; simpl.
    + run_call; simpl.
      * destruct (String.eqb (code e) "PGRST116"); finish_unchanged.
      * unfold Supabase.user_by_id. destruct (users (db w) !! id); finish_unchanged.
    + run_call; [simpl; finish_unchanged|].
      rewrite whitelist_by_email_reply.
      destruct (admin_whitelist (db w) !! email user); simpl; [|finish_unchanged].
      run_call; simpl.
      * destruct (String.eqb (code e) "PGRST116"); finish_unchanged.
      * unfold Supabase.user_by_id. simpl. destruct (users (db w) !! id); finish_unchanged.
  - case_bool_decide as Hid; simpl; [|finish_unchanged].
    run_call; simpl; [finish_unchanged|].
    unfold Supabase.user_upsert. rewrite <- Hid. finish_unchanged.
  - case_bool_decide as Hid; simpl; [|finish_unchanged].
    run_call; simpl; [finish_unchanged|].
    destruct (JSDate.lt _ _); simpl; [finish_unchanged|].
    run_call; simpl; [finish_unchanged|].
    unfold Supabase.od_insert. rewrite Hid. finish_unchanged.
  - case_bool_decide; simpl.
    + run_call; finish_unchanged.
    + run_call; [simpl; finish_unchanged|].
      rewrite whitelist_by_email_reply.
      destruct (admin_whitelist (db w) !! email user); simpl; [|finish_unchanged].
      run_call; finish_unchanged.
  - run_call; finish_unchanged.
  - destruct (rb_reviewedBy body) as [reviewedBy|]; simpl; [|finish_unchanged].
    destruct (String.eqb reviewedBy (sub user)); simpl; [|finish_unchanged].
    run_call; simpl; [finish_unchanged|].
    unfold Supabase.od_update.
    destruct (filter _ _) as [|r0 [|? ?]]; finish_unchanged.
  - run_call; finish_unchanged.
  - run_call; finish_unchanged.
  - run_call; finish_unchanged.
  - run_call; simpl; [finish_unchanged|].
    unfold Supabase.whitelist_insert.
    destruct (admin_whitelist (db w) !! a_email body); finish_unchanged.
  - run_call; finish_unchanged.
  - run_call; finish_unchanged.
Qed.

Lemma serve_store_unchanged (r : Route) (user : Claims) (w : World) :
  reads_only r = true \/ 400 <= status (serve Date_parse LocalTZA r user w).1 ->
  db (serve Date_parse LocalTZA r user w).2 = db w.
Proof.
  unfold serve. destruct (required_role r) as [role|]; [|apply handler_store_unchanged].
  unfold bind.
  pose proof (authorize_world user w role) as Hw.
  destruct (authorize role user w) as [[user'|resp] w1]; simpl in Hw; subst w1.
  - intros H. rewrite handler_store_unchanged by exact H. reflexivity.
  - reflexivity.
Qed.
End Unchanged.

(** X9.  A request that only reads, and a request that is answered with
    a status of 400 or more, leave every table of the store as it was:
    no route writes and then fails. *)
Theorem failure_leaves_store_unchanged
    (jwt_verify : string -> option Claims) (Date_parse : string -> JSDate.Num) (LocalTZA : Z)
    (authHeader : option string) (r : Route) (w : World) :
  reads_only r = true \/
    400 <= status (app jwt_verify Date_parse LocalTZA authHeader r w).1 ->
  db (app jwt_verify Date_parse LocalTZA authHeader r w).2 = db w.
Proof.
  unfold app.
  destruct r; try reflexivity;
    (destruct (authenticate jwt_verify authHeader) as [user|resp]; [|reflexivity];
     apply serve_store_unchanged).
Qed.

Lemma failure_leaves_store_unchanged_witness :
  status (app Sample.verify Sample.parse_iso_date Sample.IST (Some "Bearer good")
            (POST_od_request Sample.request_yesterday) Sample.world).1 = 400 /\
  db (app Sample.verify Sample.parse_iso_date Sample.IST (Some "Bearer good")
        (POST_od_request Sample.request_yesterday) Sample.world).2 = db Sample.world.
Proof.
  assert (Hs : status (app Sample.verify Sample.parse_iso_date Sample.IST (Some "Bearer good")
                         (POST_od_request Sample.request_yesterday) Sample.world).1 = 400)
    by (vm_compute; reflexivity).
  split; [exact Hs|].
  apply failure_leaves_store_unchanged. right. rewrite Hs. lia.
Defined.

Ltac finish_frame := simpl; unfold framed; simpl; split_and!; first [reflexivity | discriminate].

Section Frame.
Variable Date_parse : string -> JSDate.Num.
Variable LocalTZA : Z.

Lemma handler_frame (r : Route) (user : Claims) (w : World) :
  framed r (db w) (db (handler Date_parse LocalTZA r user w).2).
Proof.
  destruct r; simpl;
    unfold get_health, get_timings, get_user, post_user, post_od_request, get_od_history,
      get_od_pending, put_od_review, get_reports_summary, get_reports_export,
      get_admin_whitelist, post_admin_whitelist, delete_admin_whitelist, post_admin_timings,
      owner_or_admin, validatePeriods, try_catch, bindJ, await, bind, ret.
  - finish_frame.
  - run_call; finish_frame.
  - case_bool_decide; simpl.
    + run_call; simpl.
      * destruct (String.eqb (code e) "PGRST116"); finish_frame.
      * unfold Supabase.user_by_id. destruct (users (db w) !! id); finish_frame.
    + run_call; [simpl; finish_frame|].
      rewrite whitelist_by_email_reply.
      destruct (admin_whitelist (db w) !! email user); simpl; [|finish_frame].
      run_call; simpl.
      * destruct (String.eqb (code e) "PGRST116"); finish_frame.
      * unfold Supabase.user_by_id. simpl. destruct (users (db w) !! id); finish_frame.
  - case_bool_decide as Hid; simpl; [|finish_frame].
    run_call; simpl; [finish_frame|].
    unfold Supabase.user_upsert. rewrite <- Hid. finish_frame.
  - case_bool_decide as Hid; simpl; [|finish_frame].
    run_call; simpl; [finish_frame|].
    destruct (JSDate.lt _ _); simpl; [finish_frame|].
    run_call; simpl; [finish_frame|].
    unfold Supabase.od_insert. rewrite Hid. finish_frame.
  - case_bool_decide; simpl.
    + run_call; finish_frame.
    + run_call; [simpl; finish_frame|].
      rewrite whitelist_by_email_reply.
      destruct (admin_whitelist (db w) !! email user); simpl; [|finish_frame].
      run_call; finish_frame.
  - run_call; finish_frame.
  - destruct (rb_reviewedBy body) as [reviewedBy|]; simpl; [|finish_frame].
    destruct (String.eqb reviewedBy (sub user)); simpl; [|finish_frame].
    run_call; simpl; [finish_frame|].
    unfold Supabase.od_update.
    destruct (filter _ _) as [|r0 [|? ?]]; finish_frame.
  - run_call; finish_frame.
  - run_call; finish_frame.
  - run_call; finish_frame.
  - run_call; simpl; [finish_frame|].
    unfold Supabase.whitelist_insert.
    destruct (admin_whitelist (db w) !! a_email body); finish_frame.
  - run_call; finish_frame.
  - run_call; finish_frame.
Qed.

Lemma serve_frame (r : Route) (user : Claims) (w : World) :
  framed r (db w) (db (serve Date_parse LocalTZA r user w).2).
Proof.
  unfold serve. destruct (required_role r) as [role|]; [|apply handler_frame].
  unfold bind.
  pose proof (authorize_world user w role) as Hw.
  destruct (authorize role user w) as [[user'|resp] w1]; simpl in Hw; subst w1.
  - apply (handler_frame r user' (after_call _ _ w)).
  - unfold framed. simpl. tauto.
Qed.
End Frame.

(** X10.  Every route leaves alone the tables that are not its own: the
    users table is written by [POST /api/user] only, the whitelist by
    the two whitelist routes, the timings by [POST /api/admin/timings],
    and the requests by the create and the review route. *)
Theorem routes_write_their_table_only
    (jwt_verify : string -> option Claims) (Date_parse : string -> JSDate.Num) (LocalTZA : Z)
    (authHeader : option string) (r : Route) (w : World) :
  framed r (db w) (db (app jwt_verify Date_parse LocalTZA authHeader r w).2).
Proof.
  unfold app.
  assert (Hrefl : framed r (db w) (db w)) by (unfold framed; tauto).
  destruct r; try exact Hrefl;
    (destruct (authenticate jwt_verify authHeader) as [user|resp]; [|exact Hrefl];
     apply serve_frame).
Qed.

(* ===================================================================== *)
(** ** Further facts: the review                                          *)
(* ===================================================================== *)

Lemma od_update_rows_pointwise id p rows :
  Forall2 (fun r r' => same_request r r' /\ (od_id r <> id -> r' = r))
    rows (Supabase.od_update_rows id p rows).
Proof.
  unfold Supabase.od_update_rows. induction rows as [|r rows IH]; [constructor|].
  rewrite fmap_cons. constructor; [|exact IH].
  case_bool_decide as Hid.
  - split; [|contradiction]. unfold same_request. simpl. tauto.
  - split; [|reflexivity]. unfold same_request. tauto.
Qed.


(** X11.  Whatever it answers, the review handler leaves the table of
    requests with the same rows in the same places: the rows of another
    id are untouched, and the row of the reviewed id keeps its id, its
    user, its registration number, year, periods, date, department,
    category and submission time. *)
Theorem review_touches_one_row (user : Claims) (id : nat) (body : ReviewBody) (w : World) :
  Forall2 (fun r r' => same_request r r' /\ (od_id r <> id -> r' = r))
    (od_requests (db w)) (od_requests (db (put_od_review user id body w).2)).
Proof.
  assert (Hrefl : forall rows : list ODRequest,
            Forall2 (fun r r' => same_request r r' /\ (od_id r <> id -> r' = r)) rows rows).
  { intros rows. apply Forall2_same_length_lookup_2; [reflexivity|].
    intros i x y Hx Hy. rewrite Hx in Hy. injection Hy as <-.
    unfold same_request. tauto. }
  unfold put_od_review, try_catch, bindJ, await, bind.
  destruct (rb_reviewedBy body) as [reviewedBy|]; simpl; [|apply Hrefl].
  destruct (String.eqb reviewedBy (sub user)); simpl; [|apply Hrefl].
  run_call; simpl; [apply Hrefl|].
  unfold Supabase.od_update.
  destruct (filter _ _) as [|r0 [|? ?]]; simpl; try apply Hrefl.
  apply od_update_rows_pointwise.
Qed.

(* ===================================================================== *)
(** ** Further facts: no retry                                            *)
(* ===================================================================== *)

Ltac finish_stop :=
  simpl; rewrite <- ?app_assoc;
  eexists; split; [reflexivity|];
  split; [simpl; lia|];
  let i := fresh "i" in
  let c := fresh "c" in
  let Hi := fresh "Hi" in
  let Hop := fresh "Hop" in
  let Herr := fresh "Herr" in
  intros i c Hi Hop Herr; simpl in Hi;
  repeat (destruct i as [|i]; simpl in Hi;
          [injection Hi as <-; simpl in Hop, Herr;
           first [reflexivity
                 | exfalso; apply Hop; reflexivity
                 | exfalso; destruct Herr as [? Herr]; discriminate Herr] |]);
  try discriminate Hi.

Section Stop.
Variable Date_parse : string -> JSDate.Num.
Variable LocalTZA : Z.

Lemma handler_stops (r : Route) (user : Claims) (w : World) :
  exists cs,
    trace (handler Date_parse LocalTZA r user w).2 = trace w ++ cs /\
    length cs <= 2 /\ stops_at_failure cs.
Proof.
  unfold stops_at_failure.
  destruct r; simpl;
    unfold get_health, get_timings, get_user, post_user, post_od_request, get_od_history,
      get_od_pending, put_od_review, get_reports_summary, get_reports_export,
      get_admin_whitelist, post_admin_whitelist, delete_admin_whitelist, post_admin_timings,
      owner_or_admin, validatePeriods, try_catch, bindJ, await, bind, ret.
  - exists []. rewrite app_nil_r. split_and!; [reflexivity | simpl; lia |].
    intros i c Hi. discriminate Hi.
  - run_call; finish_stop.
  - case_bool_decide; simpl.
    + run_call; simpl.
      * destruct (String.eqb (code e) "PGRST116"); finish_stop.
      * unfold Supabase.user_by_id. destruct (users (db w) !! id); finish_stop.
    + run_call; [simpl; finish_stop|].
      rewrite whitelist_by_email_reply.
      destruct (admin_whitelist (db w) !! email user); simpl; [|finish_stop].
      run_call; simpl.
      * destruct (String.eqb (code e) "PGRST116"); finish_stop.
      * unfold Supabase.user_by_id. simpl. destruct (users (db w) !! id); finish_stop.
  - case_bool_decide as Hid; simpl.
    + run_call; simpl; [finish_stop|].
      unfold Supabase.user_upsert. rewrite <- Hid. finish_stop.
    + exists []. rewrite app_nil_r. split_and!; [reflexivity | simpl; lia |].
      intros i c Hi. discriminate Hi.
  - case_bool_decide as Hid; simpl.
    + run_call; simpl; [finish_stop|].
      destruct (JSDate.lt _ _); simpl; [finish_stop|].
      run_call; simpl; [finish_stop|].
      unfold Supabase.od_insert. rewrite Hid. finish_stop.
    + exists []. rewrite app_nil_r. split_and!; [reflexivity | simpl; lia |].
      intros i c Hi. discriminate Hi.
  - case_bool_decide; simpl.
    + run_call; finish_stop.
    + run_call; [simpl; finish_stop|].
      rewrite whitelist_by_email_reply.
      destruct (admin_whitelist (db w) !! email user); simpl; [|finish_stop].
      run_call; finish_stop.
  - run_call; finish_stop.
  - destruct (rb_reviewedBy body) as [reviewedBy|]; simpl.
    + destruct (String.eqb reviewedBy (sub user)); simpl.
      * run_call; simpl; [finish_stop|].
        unfold Supabase.od_update.
        destruct (filter _ _) as [|r0 [|? ?]]; finish_stop.
      * exists []. rewrite app_nil_r. split_and!; [reflexivity | simpl; lia |].
        intros i c Hi. discriminate Hi.
    + exists []. rewrite app_nil_r. split_and!; [reflexivity | simpl; lia |].
      intros i c Hi. discriminate Hi.
  - run_call; finish_stop.
  - run_call; finish_stop.
  - run_call; finish_stop.
  - run_call; simpl; [finish_stop|].
    unfold Supabase.whitelist_insert.
    destruct (admin_whitelist (db w) !! a_email body); finish_stop.
  - run_call; finish_stop.
  - run_call; finish_stop.
Qed.

(** X22.  A request makes at most three calls to the store, and when a
    call other than a whitelist lookup fails, it is the last call of
    the request: nothing is retried and nothing is asked after. *)
Theorem requests_stop_at_failure (r : Route) (user : Claims) (w : World) :
  length (calls (serve Date_parse LocalTZA r user) w) <= 3 /\
  stops_at_failure (calls (serve Date_parse LocalTZA r user) w).
Proof.
  unfold serve. destruct (required_role r) as [role|].
  - assert (Hs : exists cs,
      trace ((let* step := authorize role user in
              match step with
              | Next user' => handler Date_parse LocalTZA r user'
              | Respond resp => ret resp
              end) w).2 = trace w ++ cs /\ length cs <= 3 /\ stops_at_failure cs).
    { unfold bind.
      pose proof (authorize_world user w role) as Hw.
      destruct (authorize role user w) as [[user'|resp] w1]; simpl in Hw; subst w1.
      - destruct (handler_stops r user'
                    (after_call whitelist_lookup (lookup_error (email user) w) w))
          as (cs & Htr & Hlen & Hcs).
        exists ({| call_op := whitelist_lookup;
                   call_error := lookup_error (email user) w |} :: cs).
        split; [rewrite Htr; simpl; rewrite <- app_assoc; reflexivity|].
        split; [simpl; lia|].
        intros [|i] c Hi Hop Herr; simpl in Hi.
        + injection Hi as <-. exfalso. apply Hop. reflexivity.
        + simpl. f_equal. exact (Hcs i c Hi Hop Herr).
      - eexists. split; [reflexivity|]. split; [simpl; lia|].
        intros [|i] c Hi Hop Herr; simpl in Hi; [|discriminate Hi].
        injection Hi as <-. exfalso. apply Hop. reflexivity. }
    destruct Hs as (cs & Htr & Hlen & Hcs).
    rewrite (calls_suffix _ _ _ Htr). split; assumption.
  - destruct (handler_stops r user w) as (cs & Htr & Hlen & Hcs).
    rewrite (calls_suffix _ _ _ Htr). split; [lia | assumption].
Qed.
End Stop.

(* ===================================================================== *)
(** ** Further facts: the role gate in front of the routes                *)
(* ===================================================================== *)

(** X18.  On every route registered with [authorize('admin')], a caller
    whose email is not in the whitelist is answered 403 'Admin access
    required' after the one whitelist lookup: the handler of the route
    is not run and the store is as it was. *)
Theorem admin_routes_reject_non_admins
    (Date_parse : string -> JSDate.Num) (LocalTZA : Z)
    (r : Route) (user : Claims) (w : World) :
  required_role r = Some "admin" ->
  admin_whitelist (db w) !! email user = None ->
  serve Date_parse LocalTZA r user w =
    (json 403 (JError "Admin access required"),
     after_call whitelist_lookup (lookup_error (email user) w) w) /\
  calls (serve Date_parse LocalTZA r user) w =
    [{| call_op := whitelist_lookup; call_error := lookup_error (email user) w |}].
Proof.
  intros Hr Hl.
  assert (Hs : serve Date_parse LocalTZA r user w =
    (json 403 (JError "Admin access required"),
     after_call whitelist_lookup (lookup_error (email user) w) w)).
  { unfold serve. rewrite Hr. unfold bind, authorize, bind.
    rewrite whitelist_lookup_run. simpl.
    destruct (lookup_reply_unlisted w _ Hl) as [e ->]. reflexivity. }
  split; [exact Hs|].
  apply calls_suffix. rewrite Hs. reflexivity.
Qed.

Lemma admin_routes_reject_non_admins_witness :
  (serve Sample.parse_iso_date Sample.IST (DELETE_admin_whitelist "principal@kpriet.ac.in")
     Sample.student Sample.world).1 = json 403 (JError "Admin access required") /\
  db (serve Sample.parse_iso_date Sample.IST (DELETE_admin_whitelist "principal@kpriet.ac.in")
        Sample.student Sample.world).2 = Sample.store.
Proof.
  destruct (admin_routes_reject_non_admins Sample.parse_iso_date Sample.IST
              (DELETE_admin_whitelist "principal@kpriet.ac.in") Sample.student Sample.world
              eq_refl eq_refl) as [Hs _].
  rewrite Hs. split; reflexivity.
Defined.

(** X19.  With the whitelist lookup served, [POST /api/od/request] is
    closed to administrators: a caller whose email is in the whitelist
    is answered 403 after the lookup, and no request is validated or
    inserted.  When the lookup fails, its error is dropped: such a
    caller is let through to the handler when the email ends with the
    institutional domain, and answered 403 when it does not. *)
Theorem od_request_rejects_admins
    (Date_parse : string -> JSDate.Num) (LocalTZA : Z)
    (body : ODBody) (user : Claims) (w : World) (d : option string) :
  admin_whitelist (db w) !! email user = Some d ->
  (fault_at 0 w = None ->
     serve Date_parse LocalTZA (POST_od_request body) user w =
       (json 403 (JError "User access required (KPRIET domain)"),
        after_call whitelist_lookup None w)) /\
  (forall e, fault_at 0 w = Some e ->
     serve Date_parse LocalTZA (POST_od_request body) user w =
       if endsWith (email user) "@kpriet.ac.in"
       then post_od_request Date_parse LocalTZA user body
              (after_call whitelist_lookup (Some e) w)
       else (json 403 (JError "User access required (KPRIET domain)"),
             after_call whitelist_lookup (Some e) w)).
Proof.
  intros Hl. split.
  - intros H. unfold serve. simpl. unfold bind, authorize, bind.
    rewrite whitelist_lookup_run. unfold lookup_reply, lookup_error. rewrite H, Hl.
    reflexivity.
  - intros e H. unfold serve. simpl. unfold bind, authorize, bind.
    rewrite whitelist_lookup_run. unfold lookup_reply, lookup_error. rewrite H. simpl.
    destruct (endsWith (email user) "@kpriet.ac.in"); reflexivity.
Qed.

Lemma od_request_rejects_admins_witness :
  (serve Sample.parse_iso_date Sample.IST (POST_od_request Sample.request_2099)
     Sample.hod_cse Sample.world).1 = json 403 (JError "User access required (KPRIET domain)") /\
  serve Sample.parse_iso_date Sample.IST (POST_od_request Sample.request_2099)
    Sample.hod_cse Sample.world_down =
    post_od_request Sample.parse_iso_date Sample.IST Sample.hod_cse Sample.request_2099
      (after_call whitelist_lookup (Some Sample.outage) Sample.world_down).
Proof.
  destruct (od_request_rejects_admins Sample.parse_iso_date Sample.IST Sample.request_2099
              Sample.hod_cse Sample.world (Some "CSE") eq_refl) as [Hserved _].
  destruct (od_request_rejects_admins Sample.parse_iso_date Sample.IST Sample.request_2099
              Sample.hod_cse Sample.world_down (Some "CSE") eq_refl) as [_ Hfailed].
  split.
  - rewrite (Hserved eq_refl). reflexivity.
  - exact (Hfailed Sample.outage eq_refl).
Defined.

(** X25.  For every role tag, the ones it does not know included,
    [authorize] asks the store once, for the whitelist entry of the
    email, on every request, and writes nothing: the store and the
    clock are as they were. *)
Theorem authorize_reads_once (role : string) (user : Claims) (w : World) :
  calls (authorize role user) w =
    [{| call_op := whitelist_lookup; call_error := lookup_error (email user) w |}] /\
  db (authorize role user w).2 = db w /\
  faults (authorize role user w).2 = tail (faults w).
Proof.
  pose proof (authorize_world user w role) as Hw.
  split_and!.
  - apply calls_suffix. rewrite Hw. reflexivity.
  - rewrite Hw. reflexivity.
  - rewrite Hw. reflexivity.
Qed.

(* ===================================================================== *)
(** ** Further facts: how the routes compose                              *)
(* ===================================================================== *)

Lemma fault_at_tail n w db' tr :
  fault_at n {| db := db'; clock := clock w; faults := tail (faults w); trace := tr |}
  = fault_at (S n) w.
Proof. unfold fault_at. simpl. destruct (faults w); reflexivity. Qed.

Section Whitelist.
Variable w : World.

Lemma post_admin_whitelist_served row :
  fault_at 0 w = None ->
  admin_whitelist (db w) !! a_email row = None ->
  exists w',
    post_admin_whitelist row w = (json 201 (JAdmin row), w') /\
    admin_whitelist (db w') = <[a_email row := a_department row]> (admin_whitelist (db w)) /\
    forall n, fault_at n w' = fault_at (S n) w.
Proof.
  intros H Hl. unfold post_admin_whitelist, try_catch, bindJ, await, bind.
  rewrite (from_served _ _ _ H). unfold Supabase.whitelist_insert. rewrite Hl. simpl.
  eexists. split_and!; [reflexivity | reflexivity |].
  intros n. apply fault_at_tail.
Qed.

Lemma delete_admin_whitelist_served mail :
  fault_at 0 w = None ->
  exists w',
    delete_admin_whitelist mail w = ({| status := 204; payload := NoContent |}, w') /\
    admin_whitelist (db w') = delete mail (admin_whitelist (db w)) /\
    forall n, fault_at n w' = fault_at (S n) w.
Proof.
  intros H. unfold delete_admin_whitelist, try_catch, bindJ, await, bind.
  rewrite (from_served _ _ _ H). simpl.
  eexists. split_and!; [reflexivity | reflexivity |].
  intros n. apply fault_at_tail.
Qed.
End Whitelist.


(** X12.  Granting: once an administrator has posted a whitelist entry
    for an email that had none, the whitelist holds the entry.  At the
    next request of an identity with that email, when the whitelist
    lookup is served, the identity passes [authorize('admin')] with the
    department of the entry and no longer passes [authorize('user')];
    when that lookup fails, the identity is answered 403 by
    [authorize('admin')], and [authorize('user')] lets it through when
    its email ends with the institutional domain. *)
Theorem whitelist_grant_takes_effect (row : AdminRow) (w : World) (user : Claims) :
  fault_at 0 w = None ->
  admin_whitelist (db w) !! a_email row = None ->
  email user = a_email row ->
  exists w',
    post_admin_whitelist row w = (json 201 (JAdmin row), w') /\
    admin_whitelist (db w') !! email user = Some (a_department row) /\
    (fault_at 0 w' = None ->
       (authorize "admin" user w').1 =
         Next {| sub := sub user; email := email user; department := a_department row |} /\
       (authorize "user" user w').1 =
         Respond (json 403 (JError "User access required (KPRIET domain)"))) /\
    (forall e, fault_at 0 w' = Some e ->
       (authorize "admin" user w').1 = Respond (json 403 (JError "Admin access required")) /\
       (authorize "user" user w').1 =
         if endsWith (email user) "@kpriet.ac.in" then Next user
         else Respond (json 403 (JError "User access required (KPRIET domain)"))).
Proof.
  intros H0 Hl He.
  destruct (post_admin_whitelist_served w row H0 Hl) as (w' & Hp & Hdb & Hf).
  exists w'. split; [exact Hp|].
  assert (Hin : admin_whitelist (db w') !! email user = Some (a_department row)).
  { rewrite Hdb, He. apply lookup_insert_eq. }
  split; [exact Hin|]. split.
  - intros Hf0.
    rewrite (authorize_admin_served user w' Hf0), (authorize_user_served user w' Hf0), Hin.
    split; reflexivity.
  - intros e Hf0. exact (authorize_lookup_failed user w' e Hf0).
Qed.

Lemma whitelist_grant_takes_effect_witness :
  exists w',
    post_admin_whitelist Sample.new_admin Sample.world = (json 201 (JAdmin Sample.new_admin), w') /\
    (authorize "admin" Sample.hod_ece w').1 =
      Next {| sub := "a3"; email := "hod.ece@kpriet.ac.in"; department := Some "ECE" |} /\
    (authorize "user" Sample.hod_ece w').1 =
      Respond (json 403 (JError "User access required (KPRIET domain)")).
Proof.
  destruct (whitelist_grant_takes_effect Sample.new_admin Sample.world Sample.hod_ece
              eq_refl eq_refl eq_refl) as (w' & Hp & _ & Hserved & _).
  exists w'. split; [exact Hp|]. apply Hserved.
  assert (Hw : w' = (post_admin_whitelist Sample.new_admin Sample.world).2)
    by (rewrite Hp; reflexivity).
  rewrite Hw. vm_compute. reflexivity.
Defined.

(** X13.  Revoking: once the whitelist entry of an email is deleted, an
    identity with that email is answered 403 by [authorize('admin')]. *)
Theorem whitelist_revoke_takes_effect (mail : string) (w : World) (user : Claims) :
  fault_at 0 w = None -> fault_at 1 w = None ->
  email user = mail ->
  exists w',
    delete_admin_whitelist mail w = ({| status := 204; payload := NoContent |}, w') /\
    (authorize "admin" user w').1 = Respond (json 403 (JError "Admin access required")).
Proof.
  intros H0 H1 He.
  destruct (delete_admin_whitelist_served w mail H0) as (w' & Hp & Hdb & Hf).
  exists w'. split; [exact Hp|].
  assert (Hf0 : fault_at 0 w' = None) by (rewrite Hf; exact H1).
  rewrite (authorize_admin_served user w' Hf0).
  rewrite Hdb, He, lookup_delete_eq. reflexivity.
Qed.

Lemma whitelist_revoke_takes_effect_witness :
  exists w',
    delete_admin_whitelist "principal@kpriet.ac.in" Sample.world
      = ({| status := 204; payload := NoContent |}, w') /\
    (authorize "admin" Sample.principal w').1
      = Respond (json 403 (JError "Admin access required")).
Proof.
  apply (whitelist_revoke_takes_effect "principal@kpriet.ac.in" Sample.world Sample.principal);
    reflexivity.
Defined.

(** X14.  The delete route does not look at whose entry goes: an
    administrator who deletes the own entry is answered 204, and is
    answered 403 on every administrator route from then on. *)
Theorem whitelist_self_revoke
    (Date_parse : string -> JSDate.Num) (LocalTZA : Z) (user : Claims) (w : World)
    (d : option string) :
  fault_at 0 w = None -> fault_at 1 w = None -> fault_at 2 w = None ->
  admin_whitelist (db w) !! email user = Some d ->
  exists w',
    serve Date_parse LocalTZA (DELETE_admin_whitelist (email user)) user w
      = ({| status := 204; payload := NoContent |}, w') /\
    forall r, required_role r = Some "admin" ->
      (serve Date_parse LocalTZA r user w').1 = json 403 (JError "Admin access required").
Proof.
  intros H0 H1 H2 Hl. unfold serve at 1. simpl. unfold bind.
  pose proof (authorize_admin_served user w H0) as Ha.
  pose proof (authorize_world user w "admin") as Hw.
  destruct (authorize "admin" user w) as [step w1]. simpl in Ha, Hw. subst step w1.
  rewrite Hl.
  destruct (delete_admin_whitelist_served
              (after_call whitelist_lookup (lookup_error (email user) w) w) (email user))
    as (w' & Hp & Hdb & Hf).
  { rewrite fault_at_after_call. exact H1. }
  exists w'. split; [exact Hp|].
  intros r Hr. unfold serve. rewrite Hr. unfold bind.
  assert (Hf0 : fault_at 0 w' = None).
  { rewrite Hf, fault_at_after_call. exact H2. }
  pose proof (authorize_admin_served user w' Hf0) as Ha'.
  destruct (authorize "admin" user w') as [step w2]. simpl in Ha'. subst step.
  rewrite Hdb. simpl. rewrite lookup_delete_eq. reflexivity.
Qed.

Lemma whitelist_self_revoke_witness :
  exists w',
    serve Sample.parse_iso_date Sample.IST (DELETE_admin_whitelist "hod.cse@kpriet.ac.in")
      Sample.hod_cse Sample.world = ({| status := 204; payload := NoContent |}, w') /\
    (serve Sample.parse_iso_date Sample.IST GET_od_pending Sample.hod_cse w').1
      = json 403 (JError "Admin access required").
Proof.
  destruct (whitelist_self_revoke Sample.parse_iso_date Sample.IST Sample.hod_cse Sample.world
              (Some "CSE") eq_refl eq_refl eq_refl eq_refl) as (w' & Hp & Hr).
  exists w'. split; [exact Hp|]. apply Hr. reflexivity.
Defined.

(** X15.  The profile round trip: the row that [POST /api/user] answers
    for the own id holds the fields of the body, and a
    [GET /api/user/:id] of the same user right after answers that row. *)
Theorem profile_round_trip (user : Claims) (body : UserBody) (w : World) :
  ub_id body = Some (sub user) ->
  fault_at 0 w = None -> fault_at 1 w = None ->
  exists row w',
    post_user user body w = (json 200 (JUser row), w') /\
    row = {| u_id := sub user; u_name := ub_name body; u_email := ub_email body;
             u_department := ub_department body; u_year := ub_year body |} /\
    (get_user user (sub user) w').1 = json 200 (JUser row).
Proof.
  intros Hid H0 H1. unfold post_user, try_catch, bindJ, await, bind.
  rewrite bool_decide_eq_true_2 by congruence. simpl.
  rewrite (from_served _ _ _ H0). unfold Supabase.user_upsert. rewrite Hid. simpl.
  eexists _, _. split_and!; [reflexivity | reflexivity |].
  unfold get_user, try_catch, bindJ, bind. rewrite owner_or_admin_run.
  rewrite bool_decide_eq_true_2 by reflexivity. unfold await, bind.
  rewrite from_served by (rewrite fault_at_tail; exact H1).
  unfold Supabase.user_by_id. simpl. rewrite lookup_insert_eq. reflexivity.
Qed.

Lemma profile_round_trip_witness :
  exists row w',
    post_user Sample.student Sample.profile_u1 Sample.world = (json 200 (JUser row), w') /\
    u_name row = "Asha K" /\
    (get_user Sample.student "u1" w').1 = json 200 (JUser row).
Proof.
  destruct (profile_round_trip Sample.student Sample.profile_u1 Sample.world
              eq_refl eq_refl eq_refl) as (row & w' & Hp & -> & Hg).
  eexists _, w'. split_and!; [exact Hp | reflexivity | exact Hg].
Defined.

(** X16.  From the request to the lists: a request that is created
    (authorization, the user_id check and the date validation passed,
    the store calls served) is in the history of its user right after,
    and, when the body carried no status, in the pending list of every
    administrator whose scope covers it. *)
Theorem created_request_is_listed
    (Date_parse : string -> JSDate.Num) (LocalTZA : Z)
    (user admin : Claims) (body : ODBody) (w : World) :
  fault_at 0 w = None -> fault_at 1 w = None -> fault_at 2 w = None ->
  fault_at 3 w = None ->
  admin_whitelist (db w) !! email user = None ->
  endsWith (email user) "@kpriet.ac.in" = true ->
  b_user_id body = Some (sub user) ->
  verdict Date_parse LocalTZA (b_date body) (clock w) = Valid ->
  exists row w',
    serve Date_parse LocalTZA (POST_od_request body) user w = (json 201 (JOD row), w') /\
    (exists rows, (get_od_history user (sub user) w').1 = json 200 (JODs rows) /\ row ∈ rows) /\
    (b_status body = None ->
     Supabase.in_scope (department admin) row = true ->
     exists rows, (get_od_pending admin w').1 = json 200 (JPending rows) /\ row ∈ rows.*1).
Proof.
  intros H0 H1 H2 H3 Hl Hd Hid Hv.
  destruct (serve_post_od_request_created Date_parse LocalTZA user body w)
    as (w' & Hs & Hdb); try assumption.
  assert (Hf : fault_at 0 w' = None).
  { revert Hs. unfold serve. simpl. unfold bind.
    pose proof (authorize_user_served user w H0) as Ha.
    pose proof (authorize_world user w "user") as Hw.
    destruct (authorize "user" user w) as [step w1]. simpl in Ha, Hw. subst step w1.
    rewrite Hl, Hd.
    rewrite post_od_request_created; try assumption;
      try (rewrite fault_at_after_call; assumption).
    intros [= <-]. unfold fault_at in *. simpl.
    destruct (faults w) as [|? [|? [|? ?]]]; simpl in *; try reflexivity. exact H3. }
  exists (created_row user body w), w'. split; [exact Hs|]. split.
  - destruct (get_od_history_own user w' Hf) as [rows Hh].
    exists rows. rewrite Hh. split; [reflexivity|].
    pose proof (get_od_history_rows user (sub user) w' rows) as Hr.
    rewrite Hh in Hr. destruct (Hr eq_refl) as (_ & _ & Hperm & _).
    rewrite Hperm, Hdb. simpl. apply list_elem_of_filter. split; [reflexivity|].
    apply elem_of_app. right. apply list_elem_of_here.
  - intros Hst Hscope.
    destruct (get_od_pending_served admin w' Hf) as (rows & Hp & Hin & _).
    exists rows. rewrite Hp. split; [reflexivity|].
    apply Hin. rewrite Hdb. simpl. split_and!.
    + apply elem_of_app. right. apply list_elem_of_here.
    + rewrite Hst. reflexivity.
    + exact Hscope.
Qed.

Lemma created_request_is_listed_witness :
  exists row w' rows,
    serve Sample.parse_iso_date Sample.IST (POST_od_request Sample.request_2099)
      Sample.student Sample.world = (json 201 (JOD row), w') /\
    (get_od_pending Sample.hod_cse_in w').1 = json 200 (JPending rows) /\
    row ∈ rows.*1.
Proof.
  destruct (created_request_is_listed Sample.parse_iso_date Sample.IST Sample.student
              Sample.hod_cse_in Sample.request_2099 Sample.world)
    as (row & w' & Hs & _ & Hp); try reflexivity.
  destruct Hp as (rows & Hp & Hin); [reflexivity | |].
  { assert (Hrow : exists w1, serve Sample.parse_iso_date Sample.IST
                (POST_od_request Sample.request_2099) Sample.student Sample.world
              = (json 201 (JOD (created_row Sample.student Sample.request_2099 Sample.world)),
                 w1)) by (eexists; vm_compute; reflexivity).
    destruct Hrow as [w1 Hrow]. rewrite Hrow in Hs. injection Hs as <- _. reflexivity. }
  exists row, w', rows. split_and!; assumption.
Defined.

(** X17.  A request that is reviewed with another status than pending
    is off the pending list right after. *)
Theorem reviewed_request_leaves_pending_list
    (user admin : Claims) (id : nat) (body : ReviewBody) (w : World) r0 s :
  filter (fun r => od_id r = id) (od_requests (db w)) = [r0] ->
  rb_reviewedBy body = Some (sub user) ->
  rb_status body = Some s -> s <> "pending" ->
  fault_at 0 w = None -> fault_at 1 w = None ->
  exists row w' rows,
    put_od_review user id body w = (json 200 (JOD row), w') /\
    (get_od_pending admin w').1 = json 200 (JPending rows) /\
    forall r, r ∈ rows.*1 -> od_id r <> id.
Proof.
  intros Hrow Hby Hs Hne H0 H1.
  pose proof (put_od_review_served user id body w r0 Hby H0 Hrow) as Hr.
  match type of Hr with _ = (_, ?w1) => set (w' := w1) in * end.
  destruct (get_od_pending_served admin w') as (rows & Hp & Hin & _).
  { unfold w', fault_at in *. simpl. destruct (faults w); [reflexivity | exact H1]. }
  eexists _, w', rows. split; [exact Hr|]. split; [rewrite Hp; reflexivity|].
  intros r [Hr' [Hst _]]%Hin Hid. simpl in Hr'.
  assert (Hf : r ∈ filter (fun r => od_id r = id)
                 (Supabase.od_update_rows id (review_patch user body w) (od_requests (db w)))).
  { apply list_elem_of_filter. split; assumption. }
  rewrite filter_od_update_rows, Hrow in Hf.
  apply list_elem_of_singleton in Hf. subst r.
  simpl in Hst. rewrite Hs in Hst. simpl in Hst. contradiction.
Qed.

Lemma reviewed_request_leaves_pending_list_witness :
  exists row w' rows,
    put_od_review Sample.hod_cse_in 1 Sample.approve_by_a1 Sample.world
      = (json 200 (JOD row), w') /\
    (get_od_pending Sample.hod_cse_in w').1 = json 200 (JPending rows) /\
    Sample.od_cse ∉ rows.*1.
Proof.
  destruct (reviewed_request_leaves_pending_list Sample.hod_cse_in Sample.hod_cse_in 1
              Sample.approve_by_a1 Sample.world Sample.od_cse "approved")
    as (row & w' & rows & Hr & Hp & Hno); try reflexivity; [discriminate|].
  exists row, w', rows. split_and!; [exact Hr | exact Hp |].
  intros Hin. apply (Hno _ Hin). reflexivity.
Defined.

(* ===================================================================== *)
(** ** Further facts: the server without access control                   *)
(* ===================================================================== *)

Lemma in_scope_falsy dept r : truthy dept = false -> Supabase.in_scope dept r = true.
Proof. unfold Supabase.in_scope. intros ->. reflexivity. Qed.

Lemma od_pending_falsy dept s :
  truthy dept = false -> Supabase.od_pending dept s = Supabase.od_pending None s.
Proof.
  intros H. unfold Supabase.od_pending. do 4 f_equal.
  apply list_filter_iff. intros r. rewrite (in_scope_falsy dept r H). reflexivity.
Qed.

Lemma od_summary_rows_falsy dept s :
  truthy dept = false -> Supabase.od_summary_rows dept s = Supabase.od_summary_rows None s.
Proof.
  intros H. unfold Supabase.od_summary_rows. do 2 f_equal.
  apply list_filter_iff. intros r. rewrite (in_scope_falsy dept r H). reflexivity.
Qed.

Lemma legacy_od_update id body user now s :
  rb_reviewedBy body = Some (sub user) ->
  Legacy.od_update id body now s =
    Supabase.od_update id
      {| Supabase.p_status := rb_status body; Supabase.p_remarks := rb_remarks body;
         Supabase.p_reviewed_by := sub user; Supabase.p_reviewed_at := now |} s.
Proof.
  intros H. unfold Legacy.od_update, Supabase.od_update, Supabase.od_update_rows. rewrite H.
  reflexivity.
Qed.

Lemma from_ext {A} op (q1 q2 : Store -> Reply A * Store) w :
  q1 (db w) = q2 (db w) -> from op q1 w = from op q2 w.
Proof.
  intros H. unfold from. destruct (faults w) as [|[e|] rest]; rewrite ?H; reflexivity.
Qed.

(** X20.  The access control changed nothing for the requests it lets
    through: on every route that [index.js] has too, but the health
    route, a request that passes the checks of the newer handler (the
    own id, the own name as reviewer, no department to filter by) gets
    from it the answer, and leaves the store and the log of calls, that
    the handler of [index.js] gives. *)
Theorem secured_as_legacy
    (Date_parse : string -> JSDate.Num) (LocalTZA : Z)
    (r : Route) (user : Claims) (w : World) (h : M Response) :
  r <> GET_health ->
  guard_passes r user ->
  Legacy.handler Date_parse LocalTZA r = Some h ->
  handler Date_parse LocalTZA r user w = h w.
Proof.
  intros Hh Hg Hl. destruct r; simpl in *; try discriminate; injection Hl as <-;
    try reflexivity.
  - contradiction.
  - unfold get_user, Legacy.get_user, try_catch, bindJ, bind.
    rewrite owner_or_admin_run, bool_decide_eq_true_2 by assumption. reflexivity.
  - unfold post_user, Legacy.post_user, try_catch, bindJ, bind.
    rewrite bool_decide_eq_true_2 by congruence. reflexivity.
  - unfold post_od_request, Legacy.post_od_request, try_catch, bindJ, bind.
    rewrite bool_decide_eq_true_2 by assumption. reflexivity.
  - unfold get_od_history, Legacy.get_od_history, try_catch, bindJ, bind.
    rewrite owner_or_admin_run, bool_decide_eq_true_2 by assumption. reflexivity.
  - unfold get_od_pending, Legacy.get_od_pending, try_catch, bindJ, await, bind.
    rewrite (from_ext _ _ (Supabase.od_pending None)) by (apply od_pending_falsy; exact Hg).
    reflexivity.
  - unfold put_od_review, Legacy.put_od_review, try_catch, bindJ, await, bind.
    rewrite Hg, String.eqb_refl. simpl.
    rewrite (from_ext _ (Legacy.od_update id body (clock w)) _ w
               (legacy_od_update id body user (clock w) (db w) Hg)).
    reflexivity.
  - unfold get_reports_summary, Legacy.get_reports_summary, try_catch, bindJ, await, bind.
    rewrite (from_ext _ _ (Supabase.od_summary_rows None))
      by (apply od_summary_rows_falsy; exact Hg).
    reflexivity.
Qed.

Lemma secured_as_legacy_witness :
  put_od_review Sample.hod_cse_in 1 Sample.approve_by_a1 Sample.world =
    Legacy.put_od_review 1 Sample.approve_by_a1 Sample.world.
Proof.
  apply (secured_as_legacy Sample.parse_iso_date Sample.IST
           (PUT_od_review 1 Sample.approve_by_a1) Sample.hod_cse_in Sample.world);
    [discriminate | reflexivity | reflexivity].
Defined.

(** X21.  In [index.js] a review is not tied to anybody: with the
    update served, the row of the id is overwritten with the status and
    the remarks of the body and stamped with whatever reviewer the body
    names; a body without reviewer leaves the old one. *)
Theorem legacy_review_in_any_name (id : nat) (body : ReviewBody) (w : World) (r0 : ODRequest) :
  filter (fun r => od_id r = id) (od_requests (db w)) = [r0] ->
  fault_at 0 w = None ->
  exists row w',
    Legacy.put_od_review id body w = (json 200 (JOD row), w') /\
    od_status row = default (od_status r0) (rb_status body) /\
    od_reviewed_by row =
      match rb_reviewedBy body with
      | Some name => Some name
      | None => od_reviewed_by r0
      end /\
    row ∈ od_requests (db w').
Proof.
  intros Hrow H. unfold Legacy.put_od_review, try_catch, bindJ, await, bind.
  rewrite (from_served _ _ _ H). unfold Legacy.od_update. rewrite Hrow. simpl.
  eexists _, _. split_and!; [reflexivity | reflexivity | reflexivity |].
  simpl. apply list_elem_of_fmap. exists r0. split.
  - assert (Hin : r0 ∈ filter (fun r => od_id r = id) (od_requests (db w)))
      by (rewrite Hrow; apply list_elem_of_here).
    apply list_elem_of_filter in Hin as [Hid _].
    rewrite bool_decide_eq_true_2 by exact Hid. reflexivity.
  - assert (Hin : r0 ∈ filter (fun r => od_id r = id) (od_requests (db w)))
      by (rewrite Hrow; apply list_elem_of_here).
    apply list_elem_of_filter in Hin as [_ Hin]. exact Hin.
Qed.

Lemma legacy_review_in_any_name_witness :
  exists row w',
    Legacy.put_od_review 1
      {| rb_status := Some "approved"; rb_remarks := None; rb_reviewedBy := Some "nobody" |}
      Sample.world = (json 200 (JOD row), w') /\
    od_reviewed_by row = Some "nobody".
Proof.
  destruct (legacy_review_in_any_name 1
              {| rb_status := Some "approved"; rb_remarks := None;
                 rb_reviewedBy := Some "nobody" |} Sample.world Sample.od_cse eq_refl eq_refl)
    as (row & w' & Hr & _ & Hby & _).
  exists row, w'. split; assumption.
Defined.

(* ===================================================================== *)
(** ** Further facts: the normalized date                                 *)
(* ===================================================================== *)

Section NormalizeMore.
Import JSDate JSDateFacts.
Local Open Scope Z_scope.
Variable LocalTZA : Z.

Lemma Day_of_midnight d : Day (d * msPerDay) = d.
Proof. unfold Day, msPerDay. Z.div_mod_to_equations. lia. Qed.

Lemma YearFromDay_unique y d :
  DayFromYear y <= d < DayFromYear (y + 1) -> YearFromDay d = y.
Proof.
  intros [H1 H2]. pose proof (YearFromDay_ge y d H1).
  pose proof (YearFromDay_lt (y + 1) d H2). lia.
Qed.

(** X23.  For a date from the year 100 on (and two days or more above
    the lower end of the range of time values), the normalized date is
    the local midnight of the same local day: it is not later than the
    date and less than a day earlier, its local time is a whole number
    of days, and normalizing it again changes nothing. *)
Theorem normalize_local_midnight t :
  DayFromYear 100 <= Day (LocalTime LocalTZA t) ->
  - maxTime + 2 * msPerDay <= t <= maxTime ->
  exists v,
    normalize LocalTZA (Some t) = Some v /\
    v <= t < v + msPerDay /\
    LocalTime LocalTZA v = Day (LocalTime LocalTZA t) * msPerDay /\
    normalize LocalTZA (Some v) = Some v.
Proof.
  intros Hy Ht.
  pose proof (YearFromDay_ge 100 _ Hy) as Hyear.
  pose proof (Day_bounds (LocalTime LocalTZA t)) as Hb.
  assert (Hn : normalize LocalTZA (Some t) =
               Some (Day (LocalTime LocalTZA t) * msPerDay - LocalTZA)).
  { apply normalize_midnight; [unfold YearFromTime; lia|].
    unfold maxTime, msPerDay in *. lia. }
  exists (Day (LocalTime LocalTZA t) * msPerDay - LocalTZA).
  split; [exact Hn|]. split; [unfold LocalTime in *; lia|].
  assert (Hl : LocalTime LocalTZA (Day (LocalTime LocalTZA t) * msPerDay - LocalTZA)
               = Day (LocalTime LocalTZA t) * msPerDay) by (unfold LocalTime; lia).
  split; [exact Hl|].
  rewrite normalize_midnight.
  - rewrite Hl, Day_of_midnight. reflexivity.
  - rewrite Hl. unfold YearFromTime. rewrite Day_of_midnight. lia.
  - unfold LocalTime, maxTime, msPerDay in *. lia.
Qed.

(** X24.  For a date in the years 0 to 99 the normalized date is not
    the midnight of that day: [new Date(year, month, date)] reads a year
    below 100 as 1900 + year, and the normalized date lies in that year
    of the twentieth century. *)
Theorem normalize_two_digit_year_exact t :
  - msPerDay <= LocalTZA <= msPerDay ->
  0 <= YearFromTime (LocalTime LocalTZA t) <= 99 ->
  exists v,
    normalize LocalTZA (Some t) = Some v /\
    YearFromTime (LocalTime LocalTZA v) = 1900 + YearFromTime (LocalTime LocalTZA t).
Proof.
  intros Hz Hy. unfold normalize, getFullYear, getMonth, getDate, new_Date_ymd.
  set (lt := LocalTime LocalTZA t) in *.
  destruct ((0 <=? YearFromTime lt) && (YearFromTime lt <=? 99)) eqn:E;
    [clear E | exfalso; lia].
  pose proof (DayWithinYear_range lt) as Hd.
  pose proof (MonthOfDay_range (DayWithinYear lt) (InLeapYear lt)) as Hm.
  fold (MonthFromTime lt) in Hm.
  set (y' := 1900 + YearFromTime lt) in *.
  assert (Hday : DayFromYear y' <= MakeDay y' (MonthFromTime lt) (DateFromTime lt)
                 < DayFromYear (y' + 1)).
  { unfold MakeDay.
    rewrite (Z.div_small (MonthFromTime lt) 12) by lia.
    rewrite (Z.mod_small (MonthFromTime lt) 12) by lia.
    rewrite Z.add_0_r, DayFromYear_succ.
    pose proof (DaysInYear_cases y') as [-> Hl].
    pose proof (DaysInYear_cases (YearFromTime lt)) as [_ Hl0].
    fold (InLeapYear lt) in Hl0.
    unfold DateFromTime, MonthFromTime, MonthOfDay, DaysBeforeMonth in *.
    repeat match goal with
           | |- context [?a <? ?b] => destruct (Z.ltb_spec a b)
           end; lia. }
  assert (Hb : DayFromYear 1900 <= MakeDay y' (MonthFromTime lt) (DateFromTime lt)
               < DayFromYear 2000).
  { pose proof (DayFromYear_mono 1900 y').
    pose proof (DayFromYear_mono (y' + 1) 2000). lia. }
  unfold UTC, MakeDate, TimeClip.
  set (day := MakeDay _ _ _) in *.
  change (DayFromYear 1900) with (-25567) in Hb.
  change (DayFromYear 2000) with 10957 in Hb.
  destruct (Z.leb_spec (Z.abs (day * msPerDay + 0 - LocalTZA)) maxTime) as [_|Hbad].
  - eexists; split; [reflexivity|].
    unfold YearFromTime, LocalTime.
    replace (day * msPerDay + 0 - LocalTZA + LocalTZA) with (day * msPerDay) by lia.
    rewrite Day_of_midnight. apply YearFromDay_unique. exact Hday.
  - exfalso. unfold maxTime, msPerDay in *. lia.
Qed.
End NormalizeMore.

Lemma normalize_local_midnight_witness :
  exists v,
    normalize Sample.IST (Some Sample.today) = Some v /\
    (v <= Sample.today < v + JSDate.msPerDay)%Z /\
    normalize Sample.IST (Some v) = Some v.
Proof.
  destruct (normalize_local_midnight Sample.IST Sample.today) as (v & Hn & Hb & _ & Hi).
  - vm_compute. discriminate.
  - vm_compute. split; discriminate.
  - exists v. split; [exact Hn | split; [exact Hb | exact Hi]].
Defined.

Lemma normalize_two_digit_year_exact_witness :
  exists v,
    normalize Sample.IST (Sample.parse_iso_date "0050-06-15") = Some v /\
    JSDate.YearFromTime (JSDate.LocalTime Sample.IST v) = 1950%Z.
Proof.
  assert (Hp : Sample.parse_iso_date "0050-06-15" = Some (-60575040000000)%Z)
    by (vm_compute; reflexivity).
  rewrite Hp.
  destruct (normalize_two_digit_year_exact Sample.IST (-60575040000000)%Z) as (v & Hn & Hy).
  - vm_compute. split; discriminate.
  - vm_compute. split; discriminate.
  - exists v. split; [exact Hn|]. rewrite Hy. vm_compute. reflexivity.
Defined.

(* ===================================================================== *)
(** ** Further facts: edges of the single-row calls                       *)
(* ===================================================================== *)

#[global] Instance period_le_total : Total Supabase.period_le.
Proof. intros a b. unfold Supabase.period_le. lia. Qed.
#[global] Instance period_le_trans : Transitive Supabase.period_le.
Proof. intros a b c. unfold Supabase.period_le. lia. Qed.

(** X26.  With the query served, [GET /api/timings/:year] answers the
    timing rows of that year and no other, each once, by ascending
    period number; a year without rows gets the empty list, not an
    error. *)
Theorem timings_list_exact (year : Z) (w : World) :
  fault_at 0 w = None ->
  exists rows,
    (get_timings year w).1 = json 200 (JTimings rows) /\
    rows ≡ₚ filter (fun t => t_year t = year) (year_period_timings (db w)) /\
    StronglySorted Supabase.period_le rows /\
    (Forall (fun t => t_year t <> year) (year_period_timings (db w)) -> rows = []).
Proof.
  intros H. unfold get_timings, try_catch, bindJ, await, bind.
  rewrite (from_served _ _ _ H). simpl. eexists. split; [reflexivity|].
  split_and!.
  - apply merge_sort_Permutation.
  - apply StronglySorted_merge_sort; apply _.
  - intros Hnone.
    assert (Hf : filter (fun t => t_year t = year) (year_period_timings (db w)) = []).
    { induction Hnone as [|t ts Ht _ IH]; [reflexivity|].
      rewrite filter_cons_False by exact Ht. exact IH. }
    rewrite Hf. reflexivity.
Qed.

Lemma timings_list_exact_witness :
  (get_timings 2 Sample.world).1 = json 200 (JTimings []).
Proof.
  destruct (timings_list_exact 2 Sample.world eq_refl) as (rows & Hr & _ & _ & Hnil).
  rewrite Hr, Hnil; [reflexivity | constructor].
Defined.

(** X27.  A user who asks for the own profile before it exists is
    answered 404 'User not found': the fetch is served, finds no row,
    and the row-not-found signal of [.single()] is translated. *)
Theorem missing_profile_is_404 (user : Claims) (w : World) :
  fault_at 0 w = None ->
  users (db w) !! sub user = None ->
  (get_user user (sub user) w).1 = json 404 (JError "User not found") /\
  db (get_user user (sub user) w).2 = db w.
Proof.
  intros H Hu. unfold get_user, try_catch, bindJ, bind.
  rewrite owner_or_admin_run, bool_decide_eq_true_2 by reflexivity.
  unfold await, bind. rewrite (from_served _ _ _ H).
  unfold Supabase.user_by_id. simpl. rewrite Hu. simpl. split; reflexivity.
Qed.

Lemma missing_profile_is_404_witness :
  (get_user Sample.outsider "u9" Sample.world).1 = json 404 (JError "User not found").
Proof.
  apply (missing_profile_is_404 Sample.outsider Sample.world); reflexivity.
Defined.

(** X28.  The review of an id that no row has, by an administrator in
    the own name and with the update served, is answered 500 with the
    message of the row-not-found error of [.single()], and the table is
    as it was. *)
Theorem review_of_unknown_id (user : Claims) (id : nat) (body : ReviewBody) (w : World) :
  rb_reviewedBy body = Some (sub user) ->
  fault_at 0 w = None ->
  Forall (fun r => od_id r <> id) (od_requests (db w)) ->
  (put_od_review user id body w).1 = json 500 (JError (message Supabase.PGRST116)) /\
  db (put_od_review user id body w).2 = db w.
Proof.
  intros Hby H Hnone. unfold put_od_review, try_catch, bindJ, await, bind.
  rewrite Hby, String.eqb_refl. simpl.
  rewrite (from_served _ _ _ H). unfold Supabase.od_update.
  assert (Hf : filter (fun r => od_id r = id) (od_requests (db w)) = []).
  { induction Hnone as [|r rs Hr _ IH]; [reflexivity|].
    rewrite filter_cons_False by exact Hr. exact IH. }
  rewrite Hf. simpl. split; reflexivity.
Qed.

Lemma review_of_unknown_id_witness :
  (put_od_review Sample.hod_cse_in 99 Sample.approve_by_a1 Sample.world).1
    = json 500 (JError "JSON object requested, multiple (or no) rows returned").
Proof.
  apply (review_of_unknown_id Sample.hod_cse_in 99 Sample.approve_by_a1 Sample.world);
    [reflexivity | reflexivity |].
  repeat constructor; discriminate.
Defined.

(** X29.  A review whose body carries no status leaves the status of
    the row as it was, the property being dropped from the update, and
    still stamps the reviewer and the time of the review; the same
    holds of the remarks. *)
Theorem review_without_status (user : Claims) (id : nat) (body : ReviewBody) (w : World)
    (r0 : ODRequest) :
  rb_reviewedBy body = Some (sub user) ->
  rb_status body = None ->
  fault_at 0 w = None ->
  filter (fun r => od_id r = id) (od_requests (db w)) = [r0] ->
  exists row,
    (put_od_review user id body w).1 = json 200 (JOD row) /\
    od_status row = od_status r0 /\
    (rb_remarks body = None -> od_remarks row = od_remarks r0) /\
    od_reviewed_by row = Some (sub user) /\
    od_reviewed_at row = Some (clock w).
Proof.
  intros Hby Hst H Hrow.
  rewrite (put_od_review_served user id body w r0 Hby H Hrow).
  eexists. split; [reflexivity|]. simpl. rewrite Hst.
  split_and!; try reflexivity. intros ->. reflexivity.
Qed.

Lemma review_without_status_witness :
  exists row,
    (put_od_review Sample.hod_cse_in 1
       {| rb_status := None; rb_remarks := None; rb_reviewedBy := Some "a1" |}
       Sample.world).1 = json 200 (JOD row) /\
    od_status row = "pending" /\ od_reviewed_by row = Some "a1".
Proof.
  destruct (review_without_status Sample.hod_cse_in 1
              {| rb_status := None; rb_remarks := None; rb_reviewedBy := Some "a1" |}
              Sample.world Sample.od_cse eq_refl eq_refl eq_refl eq_refl)
    as (row & Hr & Hst & _ & Hby & _).
  exists row. split_and!; assumption.
Defined.
